(** * BeliLite: the note service and the summarization gateway of server.js

    A shallow embedding of the six request handlers of [server.js] and of
    the SQL statements they send to the [notes] table, followed by the
    properties of the handlers.

    Conventions of the embedding.
    - A JS string is a [string] whose characters are the code units 0..255.
    - A field of a JSON request body is absent, [null] or a string
      ([jsval]); the handlers test such fields with [!v] and [v || d].
    - The [notes] table is the list of its rows in rowid order together
      with the counter SQLite keeps for an AUTOINCREMENT key.
    - A timestamp written by [CURRENT_TIMESTAMP] is the reading of the
      store's clock in whole seconds (the text 'YYYY-MM-DD HH:MM:SS'
      compares as that number does); a reading of [new Date()] is in
      milliseconds.
    - The handlers run one at a time: each is a function from the table
      before the request to the response and the table after it.
    - Failures of the storage medium itself (disk, locking) are outside the
      model; the error branch of a statement is reached through the
      constraint the schema declares. *)

From Stdlib Require Import ZArith List String Ascii Bool Lia.
From Stdlib Require Import Permutation Sorted DecimalString.
From Stdlib Require DecimalZ DecimalPos.
Import ListNotations.

Open Scope string_scope.
Open Scope Z_scope.

(* ================================================================== *)
(** * JavaScript values and strings *)

Inductive jsval : Type :=
| JUndefined
| JNull
| JString (s : string).

(** [!!v]: of the values above only a non-empty string is truthy. *)
Definition truthy (v : jsval) : bool :=
  match v with
  | JString s => negb (String.length s =? 0)%nat
  | JUndefined | JNull => false
  end.

(** [a || b] *)
Definition js_or (a b : jsval) : jsval := if truthy a then a else b.

(** [String(v)], the conversion [new Error(v)] applies to its message;
    [new Error(undefined)] has the empty message. *)
Definition error_message_of (v : jsval) : string :=
  match v with
  | JString s => s
  | JNull => "null"
  | JUndefined => ""
  end.

(** White space as [String.prototype.trim] sees it, among the code units
    0..255: TAB, LF, VT, FF, CR, SP and NBSP. *)
Definition is_white_space (c : ascii) : bool :=
  let n := nat_of_ascii c in
  ((9 <=? n) && (n <=? 13) || (n =? 32) || (n =? 160))%nat.

Fixpoint trim_start (s : string) : string :=
  match s with
  | EmptyString => EmptyString
  | String c s' => if is_white_space c then trim_start s' else s
  end.

Fixpoint trim_end (s : string) : string :=
  match s with
  | EmptyString => EmptyString
  | String c s' =>
      match trim_end s' with
      | EmptyString => if is_white_space c then EmptyString
                       else String c EmptyString
      | t => String c t
      end
  end.

(** [s.trim()] *)
Definition trim (s : string) : string := trim_end (trim_start s).

Fixpoint starts_with (needle hay : string) : bool :=
  match needle, hay with
  | EmptyString, _ => true
  | String _ _, EmptyString => false
  | String a n', String b h' => Ascii.eqb a b && starts_with n' h'
  end.

(** [hay.includes(needle)] *)
Fixpoint includes (needle hay : string) : bool :=
  starts_with needle hay
  || match hay with
     | EmptyString => false
     | String _ h' => includes needle h'
     end.

(** The decimal text a template literal gives an integer. *)
Definition decimal (z : Z) : string := NilZero.string_of_int (Z.to_int z).

(* ================================================================== *)
(** * The notes table

    [CREATE TABLE IF NOT EXISTS notes (
       id INTEGER PRIMARY KEY AUTOINCREMENT,
       title TEXT NOT NULL,
       content TEXT,
       created_at DATETIME DEFAULT CURRENT_TIMESTAMP,
       updated_at DATETIME DEFAULT CURRENT_TIMESTAMP)] *)

(** A TEXT cell: [None] is NULL. *)
Definition cell : Type := option string.

Record note : Type := mkNote {
  id : Z;
  title : cell;
  content : cell;
  created_at : Z;
  updated_at : Z
}.

(** [seq] is the row of [sqlite_sequence] for the table: the largest rowid
    ever given out. *)
Record database : Type := mkDb {
  rows : list note;
  seq : Z
}.

Definition empty_db : database := {| rows := []; seq := 0 |}.

Definition sql_error : Type := string.

Definition not_null_title : sql_error :=
  "SQLITE_CONSTRAINT: NOT NULL constraint failed: notes.title".

(** What the driver binds to a [?]: a string as TEXT, [null] as NULL; a
    parameter left [undefined] stays unbound, which the statement reads as
    NULL. *)
Definition bind (v : jsval) : cell :=
  match v with
  | JString s => Some s
  | JNull | JUndefined => None
  end.

Definition max_rowid (l : list note) : Z :=
  fold_right (fun r m => Z.max (id r) m) 0 l.

(** The rowid AUTOINCREMENT gives the next row: one more than the largest
    rowid the table has ever held. *)
Definition next_rowid (db : database) : Z :=
  Z.max (seq db) (max_rowid (rows db)) + 1.

(** [INSERT INTO notes (title, content) VALUES (?, ?)] at clock reading
    [now]; the result is the error or [this.lastID] and the new table. *)
Definition insert_note (now : Z) (t c : cell) (db : database)
  : sql_error + (Z * database) :=
  match t with
  | None => inl not_null_title
  | Some _ =>
      let k := next_rowid db in
      inr (k, {| rows := rows db ++
                         [ {| id := k; title := t; content := c;
                              created_at := now; updated_at := now |} ];
                 seq := k |})
  end.

(** Insertion of a row into a list ordered by [updated_at] descending; a
    row goes before the first row that is not strictly newer, so that rows
    of equal [updated_at] keep the order in which the table is scanned. *)
Fixpoint insert_desc (r : note) (l : list note) : list note :=
  match l with
  | [] => [r]
  | x :: l' =>
      if updated_at r <? updated_at x then x :: insert_desc r l'
      else r :: l
  end.

Definition sort_desc (l : list note) : list note :=
  fold_right insert_desc [] l.

(** [SELECT * FROM notes ORDER BY updated_at DESC] *)
Definition select_all (db : database) : list note := sort_desc (rows db).

Section Statements.

(** [id_eq p k]: the comparison [id = ?] of the statements below holds
    between the text [p] bound to [?] (the [:id] segment of the path) and
    the rowid [k].  The definitions and the theorems are independent of
    the way SQLite reads a number in such a text. *)
Variable id_eq : string -> Z -> bool.

Definition hit (p : string) (r : note) : bool := id_eq p (id r).

(** [SELECT * FROM notes WHERE id = ?], read with [db.get]: the first
    row, [None] for [undefined]. *)
Definition select_note (p : string) (db : database) : option note :=
  find (hit p) (rows db).

(** The same SELECT as [db.get] hands it to its callback: the error, or
    the row.  No constraint of the schema bears on a SELECT, so that
    within the model the statement always gives the row. *)
Definition get_row (p : string) (db : database)
  : sql_error + option note :=
  inr (select_note p db).

Definition set_note (now : Z) (t c : cell) (r : note) : note :=
  {| id := id r; title := t; content := c;
     created_at := created_at r; updated_at := now |}.

(** [UPDATE notes SET title = ?, content = ?,
    updated_at = CURRENT_TIMESTAMP WHERE id = ?]; the result is the error
    or [this.changes] and the new table. *)
Definition update_note (now : Z) (t c : cell) (p : string) (db : database)
  : sql_error + (nat * database) :=
  match t with
  | None =>
      if existsb (hit p) (rows db) then inl not_null_title
      else inr (0%nat, db)
  | Some _ =>
      inr (List.length (filter (hit p) (rows db)),
           {| rows := map (fun r => if hit p r then set_note now t c r
                                    else r) (rows db);
              seq := seq db |})
  end.

(** [DELETE FROM notes WHERE id = ?]: [this.changes] and the new table. *)
Definition delete_note (p : string) (db : database) : nat * database :=
  (List.length (filter (hit p) (rows db)),
   {| rows := filter (fun r => negb (hit p r)) (rows db);
      seq := seq db |}).

End Statements.

(* ================================================================== *)
(** * Responses *)

Inductive json : Type :=
| Rows (l : list note)             (* res.json(rows) *)
| Row (r : note)                   (* res.json(row) *)
| Undefined                        (* res.json(undefined) *)
| Created (lastID : Z) (t c : jsval) (created updated : Z)
    (* { id, title, content, created_at, updated_at } of POST /api/notes,
       the two timestamps being readings of new Date() *)
| Message (message : string)       (* { message } *)
| Summary (summary : string)       (* { summary } *)
| Error (error : string) (details : option string).  (* { error, details } *)

Record response : Type := mkResponse {
  status : Z;
  body : json
}.

(** [res.json(b)]: the status stays 200. *)
Definition res_json (b : json) : response := {| status := 200; body := b |}.

(** [res.status(n).json({ error: e })] *)
Definition res_error (n : Z) (e : string) : response :=
  {| status := n; body := Error e None |}.

(* ================================================================== *)
(** * The note handlers *)

Section NoteHandlers.

Variable id_eq : string -> Z -> bool.

(** [app.get('/api/notes', ...)] *)
Definition get_notes (db : database) : response :=
  res_json (Rows (select_all db)).

(** [app.get('/api/notes/:id', ...)] *)
Definition get_note (p : string) (db : database) : response :=
  match select_note id_eq p db with
  | None => res_error 404 "Note not found"
  | Some r => res_json (Row r)
  end.

(** [app.post('/api/notes', ...)]: [now] is the store's clock when the
    INSERT runs, [d1] and [d2] the two readings of [new Date()] in the
    callback. *)
Definition post_note (now d1 d2 : Z) (t c : jsval) (db : database)
  : response * database :=
  if negb (truthy t) then (res_error 400 "Title is required", db)
  else
    match insert_note now (bind t) (bind (js_or c (JString ""))) db with
    | inl err => (res_error 500 err, db)
    | inr (lastID, db') =>
        (res_json (Created lastID t (js_or c (JString "")) d1 d2), db')
    end.

(** [app.put('/api/notes/:id', ...)]; when the SELECT that reads the row
    back fails, the answer is 500 and the UPDATE has already taken
    effect. *)
Definition put_note (now : Z) (p : string) (t c : jsval) (db : database)
  : response * database :=
  if negb (truthy t) then (res_error 400 "Title is required", db)
  else
    match update_note id_eq now (bind t) (bind (js_or c (JString ""))) p db
    with
    | inl err => (res_error 500 err, db)
    | inr (changes, db') =>
        if (changes =? 0)%nat then (res_error 404 "Note not found", db')
        else
          match get_row id_eq p db' with
          | inl err => (res_error 500 err, db')
          | inr (Some r) => (res_json (Row r), db')
          | inr None => (res_json Undefined, db')
          end
    end.

(** [app.delete('/api/notes/:id', ...)] *)
Definition delete_note_handler (p : string) (db : database)
  : response * database :=
  let '(changes, db') := delete_note id_eq p db in
  if (changes =? 0)%nat then (res_error 404 "Note not found", db')
  else (res_json (Message "Note deleted successfully"), db').

(** The five operations of the note service and the clock readings a
    request is served with. *)
Inductive operation : Type :=
| List
| Get (p : string)
| Create (t c : jsval)
| Update (p : string) (t c : jsval)
| Delete (p : string).

Record clock : Type := mkClock {
  now : Z;       (* CURRENT_TIMESTAMP, seconds *)
  date1 : Z;     (* new Date(), milliseconds *)
  date2 : Z
}.

Definition handle (k : clock) (o : operation) (db : database)
  : response * database :=
  match o with
  | List => (get_notes db, db)
  | Get p => (get_note p db, db)
  | Create t c => post_note (now k) (date1 k) (date2 k) t c db
  | Update p t c => put_note (now k) p t c db
  | Delete p => delete_note_handler p db
  end.

(** The tables the service can be in: the empty one, and those a request
    leads to. *)
Inductive reachable : database -> Prop :=
| reachable_empty : reachable empty_db
| reachable_step k o db :
    reachable db -> reachable (snd (handle k o db)).

End NoteHandlers.

(** The comparison of [id = ?] on the texts that are plain decimal
    numerals, used where an instance is needed. *)
Definition decimal_id_eq (p : string) (k : Z) : bool :=
  String.eqb p (decimal k).

(* ================================================================== *)
(** * The summarization gateway *)

Record environment : Type := mkEnv {
  env_XAI_API_URL : option string;   (* process.env.XAI_API_URL *)
  env_XAI_API_KEY : option string;   (* process.env.XAI_API_KEY *)
  env_NODE_ENV : option string       (* process.env.NODE_ENV *)
}.

(** A variable of [process.env]: a string, or [undefined] when unset. *)
Definition getenv (v : option string) : jsval :=
  match v with
  | Some s => JString s
  | None => JUndefined
  end.

(** A value inside a template literal. *)
Definition template (v : jsval) : string :=
  match v with
  | JString s => s
  | JNull => "null"
  | JUndefined => "undefined"
  end.

Definition XAI_API_URL (env : environment) : jsval :=
  js_or (getenv (env_XAI_API_URL env))
        (JString "https://api.x.ai/v1/chat/completions").

Definition XAI_API_KEY (env : environment) : jsval :=
  getenv (env_XAI_API_KEY env).

Definition newline : string := String (ascii_of_nat 10) EmptyString.

(** The argument of the one [fetch] call. *)
Record fetch_request : Type := mkFetch {
  url : jsval;
  method : string;
  authorization : string;
  content_type : string;
  model : string;
  system_content : string;
  user_content : string;
  max_tokens : Z;
  stream : bool
}.

(** What reading [data.choices[0].message.content] gives: the text, or the
    exception raised by [response.json()] or by the property access. *)
Inductive completion : Type :=
| Content (s : string)
| Throws (message : string).

(** What the handler reads of [errorData], the parsed body of a response
    that is not a success ([{}] when the body does not parse): the values
    of [errorData.error?.message] and of [errorData.message]; or, the body
    being the JSON [null], the TypeError that reading [errorData.error]
    raises. *)
Inductive error_data : Type :=
| ErrorData (error_message top_message : jsval)
| ErrorDataNull (message : string).

(** The outcome of [fetch]: it rejects with an error, or resolves to a
    response of which the handler reads the status and, as the status has
    it, [errorData] or the first completion. *)
Inductive fetch_result : Type :=
| Rejected (message : string)
| Resolved (st : Z) (errorData : error_data) (choice : completion).

(** [response.ok] *)
Definition ok (st : Z) : bool := (200 <=? st) && (st <=? 299).

(** A handler that may call upstream once: it answers at once, or it
    sends one request and answers from the outcome. *)
Inductive handler : Type :=
| Respond (r : response)
| Fetch (rq : fetch_request) (k : fetch_result -> response).

(** The [catch] block. *)
Definition on_error (env : environment) (message : string) : response :=
  if includes "401" message || includes "Unauthorized" message then
    res_error 401 "Invalid xAI API key"
  else if includes "429" message || includes "rate limit" message then
    res_error 429 "xAI API rate limit exceeded. Please try again later."
  else
    {| status := 500;
       body := Error "Failed to summarize text. Please try again."
                 (match env_NODE_ENV env with
                  | Some e => if String.eqb e "development" then Some message
                              else None
                  | None => None
                  end) |}.

(** [errorData.error?.message || errorData.message ||
    `API returned status ${response.status}`], as the message of the
    [Error] thrown. *)
Definition errorMessage (st : Z) (error_message top_message : jsval)
  : string :=
  error_message_of
    (js_or (js_or error_message top_message)
           (JString ("API returned status " ++ decimal st))).

(** The part of the handler after [await fetch(...)]. *)
Definition after_fetch (env : environment) (o : fetch_result) : response :=
  match o with
  | Rejected m => on_error env m
  | Resolved st errorData ch =>
      if negb (ok st) then
        match errorData with
        | ErrorData em tm => on_error env (errorMessage st em tm)
        | ErrorDataNull m => on_error env m
        end
      else
        match ch with
        | Content s => res_json (Summary (trim s))
        | Throws m => on_error env m
        end
  end.

Definition summarize_request (env : environment) (text : jsval)
  : fetch_request :=
  {| url := XAI_API_URL env;
     method := "POST";
     authorization := "Bearer " ++ template (XAI_API_KEY env);
     content_type := "application/json";
     model := "grok-3";
     system_content :=
       "You are a helpful assistant that creates concise, clear summaries of text. Summarize the given text in 2-3 sentences, capturing the main points.";
     user_content :=
       "Please summarize the following text:" ++ newline ++ newline
       ++ template text;
     max_tokens := 150;
     stream := false |}.

(** [!text || text.trim().length === 0]; the right operand is evaluated on
    a truthy [text] only, which is a string. *)
Definition text_missing (text : jsval) : bool :=
  negb (truthy text)
  || match text with
     | JString s => (String.length (trim s) =? 0)%nat
     | JUndefined | JNull => true
     end.

(** [app.post('/api/summarize', ...)] *)
Definition summarize (env : environment) (text : jsval) : handler :=
  if text_missing text then
    Respond (res_error 400 "Text is required for summarization")
  else if negb (truthy (XAI_API_KEY env)) then
    Respond (res_error 500
      "xAI API key not configured. Please set XAI_API_KEY in your .env file.")
  else
    Fetch (summarize_request env text) (after_fetch env).

(** Running a handler against an upstream: the response and the requests
    that went out. *)
Definition run (upstream : fetch_request -> fetch_result) (h : handler)
  : response * list fetch_request :=
  match h with
  | Respond r => (r, [])
  | Fetch rq k => (k (upstream rq), [rq])
  end.

(* ================================================================== *)
(** * Tables and settings of the examples *)

(** The table after the first request of the specification's scenario,
    [Create({title: "Groceries", content: "milk, eggs"})], served when the
    store's clock reads 100. *)
Definition groceries_db : database :=
  {| rows := [ mkNote 1 (Some "Groceries") (Some "milk, eggs") 100 100 ];
     seq := 1 |}.

(** Two notes, the second touched last. *)
Definition two_notes_db : database :=
  {| rows := [ mkNote 1 (Some "Groceries") (Some "milk, eggs") 100 100;
               mkNote 2 (Some "Errands") (Some "") 130 170 ];
     seq := 2 |}.

Definition with_key : environment :=
  {| env_XAI_API_URL := None;
     env_XAI_API_KEY := Some "xai-key";
     env_NODE_ENV := None |}.

Definition without_key : environment :=
  {| env_XAI_API_URL := None;
     env_XAI_API_KEY := None;
     env_NODE_ENV := Some "development" |}.

Definition development : environment :=
  {| env_XAI_API_URL := None;
     env_XAI_API_KEY := Some "xai-key";
     env_NODE_ENV := Some "development" |}.

(* ================================================================== *)
(** * Notions of the specification *)

(** A title, or a text, that is "empty or missing". *)
Definition empty_or_missing (v : jsval) : Prop :=
  v = JUndefined \/ v = JNull \/ v = JString "".

(** The content "defaulted to the empty string when absent". *)
Definition defaulted (c : jsval) : string :=
  match c with
  | JString s => s
  | JUndefined | JNull => ""
  end.



(** A string that "consists only of whitespace" (the empty one included). *)
Definition whitespace_only (s : string) : Prop :=
  Forall (fun c => is_white_space c = true) (list_ascii_of_string s).

(** A credential that is absent: the variable is unset, or set to nothing. *)
Definition credential_absent (env : environment) : Prop :=
  env_XAI_API_KEY env = None \/ env_XAI_API_KEY env = Some "".

(** A text that has [needle] in it, as a contiguous part. *)
Definition contains (needle hay : string) : Prop :=
  exists before rest, hay = before ++ needle ++ rest.

(** An upstream failure and its textual content: the network failed (the
    error [fetch] rejects with), the response is not a success (the
    message of its body, or "API returned status N" when it has none), or
    the body of a success cannot be read (the exception).  [None] for the
    outcome that is no failure. *)
Definition failure_text (o : fetch_result) : option string :=
  match o with
  | Rejected m => Some m
  | Resolved st errorData ch =>
      if ok st then
        match ch with
        | Throws m => Some m
        | Content _ => None
        end
      else
        match errorData with
        | ErrorData (JString (String a e)) _ => Some (String a e)
        | ErrorData _ (JString (String a e)) => Some (String a e)
        | ErrorData _ _ => Some ("API returned status " ++ decimal st)
        | ErrorDataNull m => Some m
        end
  end.

(** Every stored note has a title, and it is not the empty string. *)
Definition title_nonempty (r : note) : Prop :=
  exists s, title r = Some s /\ s <> "".

(** What [title TEXT NOT NULL] asks of a row. *)
Definition title_not_null (r : note) : Prop := title r <> None.

Definition titles_nonempty (db : database) : Prop :=
  Forall title_nonempty (rows db).

(** Most recently touched first. *)
Definition newer_or_equal (a b : note) : Prop := updated_at b <= updated_at a.

(** A list that [ORDER BY updated_at DESC] allows as the result over the
    table [db]: the rows of the table, newest first, rows of equal
    [updated_at] in any order. *)
Definition ordered_listing (db : database) (l : list note) : Prop :=
  Permutation (rows db) l /\ StronglySorted newer_or_equal l.

(* ================================================================== *)
(** * Sequences of requests *)

Section Sessions.

Variable id_eq : string -> Z -> bool.

(** The requests of a session, served one after the other, each with the
    clock readings it meets: the responses in order and the table left. *)
Fixpoint handle_all (reqs : list (clock * operation)) (db : database)
  : list response * database :=
  match reqs with
  | [] => ([], db)
  | (k, o) :: rest =>
      let '(r, db1) := handle id_eq k o db in
      let '(rs, db2) := handle_all rest db1 in
      (r :: rs, db2)
  end.

End Sessions.

(** The store's clock never goes back along a session that starts when it
    reads [t]. *)
Fixpoint clock_never_back (t : Z) (reqs : list (clock * operation)) : Prop :=
  match reqs with
  | [] => True
  | (k, _) :: rest => t <= now k /\ clock_never_back (now k) rest
  end.

(** A comparison [id = ?] that reads a plain decimal numeral as the number
    it writes, as the numeric affinity of the key column does. *)
Definition reads_decimal (id_eq : string -> Z -> bool) : Prop :=
  forall k k', id_eq (decimal k) k' = true <-> k = k'.

(** The rowids of the table are positive, none is above the counter, and
    they grow along the table (so no two rows share one). *)
Definition rowids_in_order (db : database) : Prop :=
  StronglySorted Z.lt (map id (rows db))
  /\ Forall (fun r => 1 <= id r <= seq db) (rows db).

(** Every note was created no later than it was last touched, and touched
    no later than [t]. *)
Definition stamped_upto (t : Z) (db : database) : Prop :=
  Forall (fun r => created_at r <= updated_at r /\ updated_at r <= t)
         (rows db).

(** A string with no white space at either end. *)
Definition no_outer_white_space (s : string) : Prop :=
  (forall c rest, s = String c rest -> is_white_space c = false)
  /\ (forall init c, s = init ++ String c "" -> is_white_space c = false).

(* ================================================================== *)
(** * The browser client (public/app.js)

    The script keeps one variable, [editingNoteId], and reads and writes
    a few elements of the page.  A function of the script that awaits
    [fetch] is a [client]: it ends with a page, or it sends a request and
    goes on from the reply.  The cards of the list are kept as the notes
    they show; the transient "Text summarized" message, the scrolling and
    the console are not part of the page. *)

(** What [notesList.innerHTML] shows. *)
Inductive notes_view : Type :=
| NoNotes                   (* "No notes yet. Create your first note above!" *)
| Cards (notes : list note) (* one card for each note, in the order given *)
| LoadError.                (* "Error loading notes. ..." *)

Record page : Type := mkPage {
  editingNoteId : option Z;            (* null, or the id being edited *)
  noteTitle_value : string;
  noteContent_value : string;
  formTitle_textContent : string;
  cancelBtn_display : string;
  summarizeBtn_disabled : bool;
  summarizeBtn_textContent : string;
  notesList : notes_view;
  alerts : list string                 (* the alert boxes, the last first *)
}.

(** What [await fetch(...)] gives the script: it throws, or it resolves
    to a response. *)
Inductive reply : Type :=
| Failed (message : string)
| Answered (r : response).

Inductive client : Type :=
| Finish (pg : page)
| CallNotes (o : operation) (k : reply -> client)
| CallSummarize (text : jsval) (k : reply -> client).

(** A cell of a row as the JSON of the response has it. *)
Definition cell_js (c : cell) : jsval :=
  match c with
  | Some s => JString s
  | None => JNull
  end.

(** [(await response.json()).title], and so on for the fields the script
    reads; [None] when [response.json()] throws, the body being no JSON. *)
Definition body_title (b : json) : option jsval :=
  match b with
  | Row r => Some (cell_js (title r))
  | Created _ t _ _ _ => Some t
  | Undefined => None
  | Rows _ | Message _ | Summary _ | Error _ _ => Some JUndefined
  end.

Definition body_content (b : json) : option jsval :=
  match b with
  | Row r => Some (cell_js (content r))
  | Created _ _ c _ _ => Some c
  | Undefined => None
  | Rows _ | Message _ | Summary _ | Error _ _ => Some JUndefined
  end.

Definition body_summary (b : json) : option jsval :=
  match b with
  | Summary x => Some (JString x)
  | Undefined => None
  | Rows _ | Row _ | Created _ _ _ _ _ | Message _ | Error _ _ =>
      Some JUndefined
  end.

Definition body_error (b : json) : option jsval :=
  match b with
  | Error e _ => Some (JString e)
  | Undefined => None
  | Rows _ | Row _ | Created _ _ _ _ _ | Message _ | Summary _ =>
      Some JUndefined
  end.

(** The value an input takes when the script assigns [v] to it. *)
Definition input_value (v : jsval) : string :=
  match v with
  | JString s => s
  | JNull => ""
  | JUndefined => "undefined"
  end.

(** [if (editingNoteId)] *)
Definition editing (e : option Z) : bool :=
  match e with
  | Some k => negb (k =? 0)
  | None => false
  end.

Definition alert (m : string) (pg : page) : page :=
  {| editingNoteId := editingNoteId pg;
     noteTitle_value := noteTitle_value pg;
     noteContent_value := noteContent_value pg;
     formTitle_textContent := formTitle_textContent pg;
     cancelBtn_display := cancelBtn_display pg;
     summarizeBtn_disabled := summarizeBtn_disabled pg;
     summarizeBtn_textContent := summarizeBtn_textContent pg;
     notesList := notesList pg;
     alerts := m :: alerts pg |}.

Definition show (v : notes_view) (pg : page) : page :=
  {| editingNoteId := editingNoteId pg;
     noteTitle_value := noteTitle_value pg;
     noteContent_value := noteContent_value pg;
     formTitle_textContent := formTitle_textContent pg;
     cancelBtn_display := cancelBtn_display pg;
     summarizeBtn_disabled := summarizeBtn_disabled pg;
     summarizeBtn_textContent := summarizeBtn_textContent pg;
     notesList := v;
     alerts := alerts pg |}.

Definition set_button (disabled : bool) (label : string) (pg : page) : page :=
  {| editingNoteId := editingNoteId pg;
     noteTitle_value := noteTitle_value pg;
     noteContent_value := noteContent_value pg;
     formTitle_textContent := formTitle_textContent pg;
     cancelBtn_display := cancelBtn_display pg;
     summarizeBtn_disabled := disabled;
     summarizeBtn_textContent := label;
     notesList := notesList pg;
     alerts := alerts pg |}.

Definition set_content (v : string) (pg : page) : page :=
  {| editingNoteId := editingNoteId pg;
     noteTitle_value := noteTitle_value pg;
     noteContent_value := v;
     formTitle_textContent := formTitle_textContent pg;
     cancelBtn_display := cancelBtn_display pg;
     summarizeBtn_disabled := summarizeBtn_disabled pg;
     summarizeBtn_textContent := summarizeBtn_textContent pg;
     notesList := notesList pg;
     alerts := alerts pg |}.

Section Client.

(** The values the two controls of the form have in the HTML of the page,
    which [noteForm.reset()] gives them back. *)
Variable default_title default_content : string.

(** The message of the exception [response.json()] raises on a body that
    is no JSON. *)
Variable json_error : string.

(** [noteForm.reset()] *)
Definition reset (pg : page) : page :=
  {| editingNoteId := editingNoteId pg;
     noteTitle_value := default_title;
     noteContent_value := default_content;
     formTitle_textContent := formTitle_textContent pg;
     cancelBtn_display := cancelBtn_display pg;
     summarizeBtn_disabled := summarizeBtn_disabled pg;
     summarizeBtn_textContent := summarizeBtn_textContent pg;
     notesList := notesList pg;
     alerts := alerts pg |}.

(** [editingNoteId = null; formTitle.textContent = 'Create New Note';
    cancelBtn.style.display = 'none'] *)
Definition create_mode (pg : page) : page :=
  {| editingNoteId := None;
     noteTitle_value := noteTitle_value pg;
     noteContent_value := noteContent_value pg;
     formTitle_textContent := "Create New Note";
     cancelBtn_display := "none";
     summarizeBtn_disabled := summarizeBtn_disabled pg;
     summarizeBtn_textContent := summarizeBtn_textContent pg;
     notesList := notesList pg;
     alerts := alerts pg |}.

(** [displayNotes(notes)] *)
Definition displayNotes (notes : list note) (pg : page) : page :=
  if (List.length notes =? 0)%nat then show NoNotes pg
  else show (Cards notes) pg.

(** [loadNotes()]: anything but a 2xx response with an array in it ends in
    the [catch] block. *)
Definition loadNotes (pg : page) : client :=
  CallNotes List (fun rp =>
    Finish
      match rp with
      | Failed _ => show LoadError pg
      | Answered r =>
          if negb (ok (status r)) then show LoadError pg
          else match body r with
               | Rows notes => displayNotes notes pg
               | Row _ | Undefined | Created _ _ _ _ _ | Message _
               | Summary _ | Error _ _ => show LoadError pg
               end
      end).

(** [createNote(title, content)] *)
Definition createNote (t c : string) (pg : page) : client :=
  CallNotes (Create (JString t) (JString c)) (fun rp =>
    match rp with
    | Failed _ => Finish (alert "Failed to create note. Please try again." pg)
    | Answered r =>
        if negb (ok (status r)) then
          Finish (alert "Failed to create note. Please try again." pg)
        else loadNotes (reset pg)
    end).

(** [updateNote(id, title, content)] *)
Definition updateNote (k : Z) (t c : string) (pg : page) : client :=
  CallNotes (Update (decimal k) (JString t) (JString c)) (fun rp =>
    match rp with
    | Failed _ => Finish (alert "Failed to update note. Please try again." pg)
    | Answered r =>
        if negb (ok (status r)) then
          Finish (alert "Failed to update note. Please try again." pg)
        else loadNotes (create_mode (reset pg))
    end).

(** [deleteNote(id)]; [confirmed] is the answer to the [confirm] box. *)
Definition deleteNote (confirmed : bool) (k : Z) (pg : page) : client :=
  if negb confirmed then Finish pg
  else
    CallNotes (Delete (decimal k)) (fun rp =>
      match rp with
      | Failed _ =>
          Finish (alert "Failed to delete note. Please try again." pg)
      | Answered r =>
          if negb (ok (status r)) then
            Finish (alert "Failed to delete note. Please try again." pg)
          else loadNotes pg
      end).

(** [editNote(id)] *)
Definition editNote (k : Z) (pg : page) : client :=
  CallNotes (Get (decimal k)) (fun rp =>
    Finish
      match rp with
      | Failed _ => alert "Failed to load note for editing." pg
      | Answered r =>
          if negb (ok (status r)) then
            alert "Failed to load note for editing." pg
          else
            match body_title (body r), body_content (body r) with
            | Some t, Some c =>
                {| editingNoteId := Some k;
                   noteTitle_value := input_value t;
                   noteContent_value := input_value (js_or c (JString ""));
                   formTitle_textContent := "Edit Note";
                   cancelBtn_display := "inline-block";
                   summarizeBtn_disabled := summarizeBtn_disabled pg;
                   summarizeBtn_textContent := summarizeBtn_textContent pg;
                   notesList := notesList pg;
                   alerts := alerts pg |}
            | _, _ => alert "Failed to load note for editing." pg
            end
      end).

(** [cancelEdit()] *)
Definition cancelEdit (pg : page) : page := create_mode (reset pg).

(** [summarizeText()]; the [finally] block ends every path on which the
    button was disabled. *)
Definition summarizeText (pg : page) : client :=
  let text := trim (noteContent_value pg) in
  if negb (truthy (JString text)) then
    Finish (alert "Please enter some text to summarize first!" pg)
  else
    let originalText := summarizeBtn_textContent pg in
    let busy := set_button true "⏳ Summarizing..." pg in
    let finally := set_button false originalText in
    let failed m := finally (alert ("Failed to summarize: " ++ m) busy) in
    CallSummarize (JString text) (fun rp =>
      Finish
        match rp with
        | Failed m => failed m
        | Answered r =>
            if negb (ok (status r)) then
              match body_error (body r) with
              | Some e =>
                  failed (error_message_of
                            (js_or e (JString "Failed to summarize text")))
              | None => failed json_error
              end
            else
              match body_summary (body r) with
              | Some x => finally (set_content (input_value x) busy)
              | None => failed json_error
              end
        end).

(** The listener of the form's [submit] event. *)
Definition submit (pg : page) : client :=
  let t := trim (noteTitle_value pg) in
  let c := trim (noteContent_value pg) in
  if negb (truthy (JString t)) then Finish (alert "Please enter a title" pg)
  else
    match editingNoteId pg with
    | Some k => if editing (Some k) then updateNote k t c pg
                else createNote t c pg
    | None => createNote t c pg
    end.

End Client.

(** The page script against the server: each request the script sends
    meets the network down (the [fetch] throws) or up, the server then
    serving it with the clock readings given. *)
Inductive condition : Type :=
| Offline (message : string)
| Online (k : clock).

Section ClientServer.

Variable id_eq : string -> Z -> bool.
Variable env : environment.
Variable upstream : fetch_request -> fetch_result.

Fixpoint exec (conds : list condition) (c : client) (db : database)
  : page * database :=
  match c with
  | Finish pg => (pg, db)
  | CallNotes o k =>
      match conds with
      | Online clk :: rest =>
          let '(r, db') := handle id_eq clk o db in
          exec rest (k (Answered r)) db'
      | Offline m :: rest => exec rest (k (Failed m)) db
      | [] => exec [] (k (Failed "")) db
      end
  | CallSummarize text k =>
      match conds with
      | Online _ :: rest =>
          exec rest (k (Answered (fst (run upstream (summarize env text))))) db
      | Offline m :: rest => exec rest (k (Failed m)) db
      | [] => exec [] (k (Failed "")) db
      end
  end.

End ClientServer.

(** Every page a client can end with has the property, whatever the
    replies. *)
Fixpoint always_ends (P : page -> Prop) (c : client) : Prop :=
  match c with
  | Finish pg => P pg
  | CallNotes _ k => forall rp, always_ends P (k rp)
  | CallSummarize _ k => forall rp, always_ends P (k rp)
  end.

(** A reply that is a failure for the script: the fetch threw, or the
    status of the response is not a 2xx. *)
Definition failed_reply (rp : reply) : Prop :=
  match rp with
  | Failed _ => True
  | Answered r => ~ (200 <= status r <= 299)
  end.

(** The page [pg'] is the page [pg] as the user left it, fields and mode
    included, with the one alert [m] more. *)
Definition kept_as_typed (pg : page) (m : string) (pg' : page) : Prop :=
  editingNoteId pg' = editingNoteId pg
  /\ noteTitle_value pg' = noteTitle_value pg
  /\ noteContent_value pg' = noteContent_value pg
  /\ formTitle_textContent pg' = formTitle_textContent pg
  /\ cancelBtn_display pg' = cancelBtn_display pg
  /\ summarizeBtn_disabled pg' = summarizeBtn_disabled pg
  /\ summarizeBtn_textContent pg' = summarizeBtn_textContent pg
  /\ notesList pg' = notesList pg
  /\ alerts pg' = m :: alerts pg.

(** The form, as the script leaves it when no note is being edited. *)
Definition in_create_mode (pg : page) : Prop :=
  editingNoteId pg = None
  /\ formTitle_textContent pg = "Create New Note"
  /\ cancelBtn_display pg = "none".

(* ================================================================== *)
(** * Truthiness, trimming and searching *)

Lemma truthy_false_iff (v : jsval) : truthy v = false <-> empty_or_missing v.
Proof.
  unfold empty_or_missing.
  destruct v as [ | | [ | a s]]; simpl; split; intro H; auto;
    try discriminate;
    destruct H as [H | [H | H]]; discriminate.
Qed.

Lemma truthy_true_string (v : jsval) :
  truthy v = true -> exists s, v = JString s /\ s <> "".
Proof.
  destruct v as [ | | s]; simpl; try discriminate.
  intros H. exists s. split; [reflexivity | ].
  intros ->. discriminate.
Qed.

(** The case of a request whose title passes [!title]: it is a string
    [s], and not the empty one. *)
Ltac title_given t s Hs :=
  let T := fresh "T" in
  destruct (truthy t) eqn:T;
  [ destruct (truthy_true_string t T) as [s [-> Hs]]
  | apply truthy_false_iff in T; tauto ].

Lemma js_or_empty (c : jsval) : js_or c (JString "") = JString (defaulted c).
Proof.
  destruct c as [ | | [ | a s]]; reflexivity.
Qed.

Lemma trim_start_empty_iff (s : string) :
  trim_start s = "" <-> whitespace_only s.
Proof.
  unfold whitespace_only.
  induction s as [ | c s IH]; simpl.
  - split; [constructor | reflexivity].
  - destruct (is_white_space c) eqn:E.
    + rewrite IH. split; intro H.
      * constructor; assumption.
      * inversion H; assumption.
    + split; intro H; [discriminate | ].
      inversion H; congruence.
Qed.

Lemma trim_end_empty_iff (s : string) :
  trim_end s = "" <-> whitespace_only s.
Proof.
  unfold whitespace_only.
  induction s as [ | c s IH]; simpl.
  - split; [constructor | reflexivity].
  - destruct (trim_end s) eqn:T.
    + destruct (is_white_space c) eqn:E.
      * split; intro H; [ | reflexivity].
        constructor; [assumption | apply IH; reflexivity].
      * split; intro H; [discriminate | ].
        inversion H; congruence.
    + split; intro H; [discriminate | ].
      inversion H as [ | ? ? _ Hs]. apply IH in Hs. discriminate.
Qed.

Lemma trim_start_idem (s : string) : trim_start (trim_start s) = trim_start s.
Proof.
  induction s as [ | c s IH]; simpl; [reflexivity | ].
  destruct (is_white_space c) eqn:E; [assumption | ].
  simpl. rewrite E. reflexivity.
Qed.

Lemma trim_empty_iff (s : string) : trim s = "" <-> whitespace_only s.
Proof.
  unfold trim. rewrite trim_end_empty_iff, <- !trim_start_empty_iff.
  rewrite trim_start_idem. reflexivity.
Qed.

Lemma length_zero_iff (s : string) : (String.length s =? 0)%nat = true <-> s = "".
Proof.
  destruct s; simpl; split; intro H; try reflexivity; discriminate.
Qed.

(** The test of the summarize handler, in the words of the specification. *)
Lemma text_missing_iff (text : jsval) :
  text_missing text = true <->
  text = JUndefined \/ text = JNull \/
  exists s, text = JString s /\ whitespace_only s.
Proof.
  unfold text_missing.
  destruct text as [ | | s]; simpl.
  - split; auto.
  - split; auto.
  - rewrite orb_true_iff, negb_involutive, !length_zero_iff, trim_empty_iff.
    split.
    + intros [H | H]; right; right; exists s; split; auto.
      subst s. constructor.
    + intros [H | [H | [s' [H Hw]]]]; try discriminate.
      injection H as <-. right; assumption.
Qed.

(* ================================================================== *)
(** * The statements on the table *)

Lemma max_rowid_ge (l : list note) (r : note) :
  In r l -> id r <= max_rowid l.
Proof.
  induction l as [ | x l IH]; simpl; [contradiction | ].
  intros [-> | H]; [ | specialize (IH H)]; lia.
Qed.

Lemma next_rowid_fresh (db : database) (r : note) :
  In r (rows db) -> id r < next_rowid db.
Proof.
  intros H. apply max_rowid_ge in H. unfold next_rowid. lia.
Qed.

Lemma db_eta (db : database) : {| rows := rows db; seq := seq db |} = db.
Proof. destruct db; reflexivity. Qed.

Section StatementFacts.

Variable id_eq : string -> Z -> bool.

Lemma filter_hit_nil (p : string) (l : list note) :
  (forall r, In r l -> id_eq p (id r) = false) ->
  filter (hit id_eq p) l = [].
Proof.
  induction l as [ | x l IH]; intros H; simpl; [reflexivity | ].
  unfold hit at 1. rewrite (H x (or_introl eq_refl)).
  apply IH. intros r Hr. apply H. right; exact Hr.
Qed.

Lemma map_miss_id (p : string) (f : note -> note) (l : list note) :
  (forall r, In r l -> id_eq p (id r) = false) ->
  map (fun r => if hit id_eq p r then f r else r) l = l.
Proof.
  intros H. rewrite <- (map_id l) at 2. apply map_ext_in.
  intros r Hr. unfold hit. rewrite (H r Hr). reflexivity.
Qed.

Lemma filter_miss_id (p : string) (l : list note) :
  (forall r, In r l -> id_eq p (id r) = false) ->
  filter (fun r => negb (hit id_eq p r)) l = l.
Proof.
  induction l as [ | x l IH]; intros H; simpl; [reflexivity | ].
  unfold hit at 1. rewrite (H x (or_introl eq_refl)). simpl.
  f_equal. apply IH. intros r Hr. apply H. right; exact Hr.
Qed.

Lemma find_hit_some (p : string) (l : list note) (r : note) :
  find (hit id_eq p) l = Some r ->
  In r l /\ id_eq p (id r) = true /\ filter (hit id_eq p) l <> [].
Proof.
  intros H. destruct (find_some _ _ H) as [Hin Hhit].
  repeat split; try assumption.
  intros E. assert (Hf : In r (filter (hit id_eq p) l))
    by (apply filter_In; split; assumption).
  rewrite E in Hf. contradiction.
Qed.

Lemma find_hit_none (p : string) (l : list note) :
  find (hit id_eq p) l = None <->
  forall r, In r l -> id_eq p (id r) = false.
Proof.
  split.
  - intros H r Hr. exact (find_none _ _ H r Hr).
  - induction l as [ | x l IH]; intros H; simpl; [reflexivity | ].
    unfold hit at 1. rewrite (H x (or_introl eq_refl)).
    apply IH. intros r Hr. apply H. right; exact Hr.
Qed.

Lemma exists_hit_find (p : string) (l : list note) :
  (exists r, In r l /\ id_eq p (id r) = true) ->
  exists r, find (hit id_eq p) l = Some r.
Proof.
  intros [r [Hin Hr]].
  destruct (find (hit id_eq p) l) as [x | ] eqn:E; [eauto | ].
  rewrite (proj1 (find_hit_none p l) E r Hin) in Hr. discriminate.
Qed.

(** The first row an UPDATE reaches is the first row the SELECT after it
    returns, as rewritten. *)
Lemma find_map_hit (p : string) (f : note -> note) (l : list note) :
  (forall r, id (f r) = id r) ->
  find (hit id_eq p)
       (map (fun r => if hit id_eq p r then f r else r) l)
  = option_map f (find (hit id_eq p) l).
Proof.
  intros Hf. induction l as [ | x l IH]; simpl; [reflexivity | ].
  destruct (hit id_eq p x) eqn:E.
  - unfold hit in E |- *. rewrite Hf, E. reflexivity.
  - rewrite E. exact IH.
Qed.

(** No row that a DELETE leaves is one its WHERE clause selects. *)
Lemma find_after_delete (p : string) (l : list note) :
  find (hit id_eq p) (filter (fun r => negb (hit id_eq p r)) l) = None.
Proof.
  apply find_hit_none. intros r Hr.
  apply filter_In in Hr. destruct Hr as [_ Hr].
  apply negb_true_iff in Hr. exact Hr.
Qed.

Lemma length_eqb_zero {A : Type} (l : list A) :
  (List.length l =? 0)%nat = true <-> l = [].
Proof.
  destruct l; simpl; split; intro H; try reflexivity; discriminate.
Qed.

End StatementFacts.

(* ================================================================== *)
(** * Create *)

(** The INSERT of a request with a title, as a function on the table. *)
Lemma post_note_run (now d1 d2 : Z) (s : string) (c : jsval) (db : database) :
  s <> "" ->
  post_note now d1 d2 (JString s) c db =
  (res_json (Created (next_rowid db) (JString s) (JString (defaulted c))
               d1 d2),
   {| rows := rows db ++
              [ mkNote (next_rowid db) (Some s) (Some (defaulted c))
                  now now ];
      seq := next_rowid db |}).
Proof.
  intros Hs. unfold post_note.
  replace (truthy (JString s)) with true
    by (destruct s; [congruence | reflexivity]).
  rewrite js_or_empty. reflexivity.
Qed.




(** The scenario of the specification: the first note gets [id = 1]. *)
Example create_groceries :
  post_note 100 100000 100000 (JString "Groceries") (JString "milk, eggs")
            empty_db
  = (res_json (Created 1 (JString "Groceries") (JString "milk, eggs")
                 100000 100000),
     {| rows := [ mkNote 1 (Some "Groceries") (Some "milk, eggs") 100 100 ];
        seq := 1 |}).
Proof. reflexivity. Qed.

Example create_without_title :
  post_note 100 100000 100000 JUndefined (JString "no title") empty_db
  = (res_error 400 "Title is required", empty_db)
  /\ get_notes empty_db = res_json (Rows []).
Proof. split; reflexivity. Qed.


(* ================================================================== *)
(** * Update and Delete *)

Section UpdateDelete.

Variable id_eq : string -> Z -> bool.

(** The UPDATE of a request with a title, as a function on the table. *)
Lemma put_note_run (now : Z) (p s : string) (c : jsval) (db : database) :
  s <> "" ->
  put_note id_eq now p (JString s) c db =
  let db' := {| rows := map (fun r => if hit id_eq p r
                                      then set_note now (Some s)
                                             (Some (defaulted c)) r
                                      else r) (rows db);
                seq := seq db |} in
  if (List.length (filter (hit id_eq p) (rows db)) =? 0)%nat
  then (res_error 404 "Note not found", db')
  else match select_note id_eq p db' with
       | Some r => (res_json (Row r), db')
       | None => (res_json Undefined, db')
       end.
Proof.
  intros Hs. unfold put_note.
  assert (T : truthy (JString s) = true)
    by (destruct s; [congruence | reflexivity]).
  rewrite T, js_or_empty. reflexivity.
Qed.

(** C2. An Update request whose title is empty or missing is answered 400;
    with a title, it is answered 404 when no note matches the id, the
    table being left as it was; otherwise the title and the content of the
    matching note are overwritten (the content defaulted as for Create),
    its [updated_at] is set to the clock, and the answer is the note as it
    now stands in the table. *)
Theorem update_validates_finds_overwrites
  (now : Z) (p : string) (t c : jsval) (db : database) :
  (empty_or_missing t ->
   put_note id_eq now p t c db = ({| status := 400; body := Error "Title is required" None |}, db))
  /\
  (~ empty_or_missing t ->
   (forall r, In r (rows db) -> id_eq p (id r) = false) ->
   put_note id_eq now p t c db = ({| status := 404; body := Error "Note not found" None |}, db))
  /\
  (~ empty_or_missing t ->
   forall r, select_note id_eq p db = Some r ->
   exists s db',
     t = JString s
     /\ put_note id_eq now p t c db =
        ({| status := 200; body := Row {| id := id r; title := Some s;
                          content := Some (defaulted c);
                          created_at := created_at r;
                          updated_at := now |} |}, db')
     /\ select_note id_eq p db' =
        Some {| id := id r; title := Some s; content := Some (defaulted c);
                created_at := created_at r; updated_at := now |}
     /\ rows db' =
        map (fun x => if id_eq p (id x)
                      then {| id := id x; title := Some s;
                              content := Some (defaulted c);
                              created_at := created_at x;
                              updated_at := now |}
                      else x) (rows db)
     /\ seq db' = seq db).
Proof.
  split; [ | split].
  - intros H. apply truthy_false_iff in H.
    unfold put_note. rewrite H. reflexivity.
  - intros Ht Hmiss.
    title_given t s Hs.
    rewrite (put_note_run now p s c db Hs). cbv zeta.
    rewrite (filter_hit_nil id_eq p (rows db) Hmiss),
            (map_miss_id id_eq p _ (rows db) Hmiss), db_eta.
    reflexivity.
  - intros Ht r Hr.
    title_given t s Hs.
    exists s.
    exists {| rows := map (fun x => if hit id_eq p x
                                    then set_note now (Some s)
                                           (Some (defaulted c)) x
                                    else x) (rows db);
              seq := seq db |}.
    assert (F : select_note id_eq p
                  {| rows := map (fun x => if hit id_eq p x
                                           then set_note now (Some s)
                                                  (Some (defaulted c)) x
                                           else x) (rows db);
                     seq := seq db |}
                = Some (set_note now (Some s) (Some (defaulted c)) r)).
    { unfold select_note in Hr |- *. simpl rows.
      rewrite find_map_hit, Hr by reflexivity. reflexivity. }
    split; [reflexivity | ].
    rewrite (put_note_run now p s c db Hs). cbv zeta.
    destruct (find_hit_some id_eq p (rows db) r Hr) as [_ [_ Hne]].
    destruct (List.length (filter (hit id_eq p) (rows db)) =? 0)%nat eqn:L;
      [apply length_eqb_zero in L; contradiction | ].
    rewrite F. repeat split; reflexivity.
Qed.

(** C3, as the code has it.  A successful Update answers with a note that
    has the id and the [created_at] of the note the id matched before the
    request, and whose [updated_at] is the reading of the store's clock at
    the request: not before [created_at] when the clock has not gone back
    since the note was created, and after it only when the request falls
    in a later second than the creation. *)
Theorem update_keeps_id_and_creation
  (now : Z) (p : string) (t c : jsval) (db db' : database) (r' : note) :
  put_note id_eq now p t c db = (res_json (Row r'), db') ->
  exists r,
    select_note id_eq p db = Some r
    /\ select_note id_eq p db' = Some r'
    /\ id r' = id r
    /\ created_at r' = created_at r
    /\ updated_at r' = now
    /\ (created_at r <= now -> created_at r' <= updated_at r')
    /\ (created_at r < now <-> created_at r' < updated_at r').
Proof.
  intros H.
  destruct (truthy t) eqn:T.
  - destruct (truthy_true_string t T) as [s [-> Hs]].
    rewrite (put_note_run now p s c db Hs) in H. cbv zeta in H.
    destruct (List.length (filter (hit id_eq p) (rows db)) =? 0)%nat;
      [discriminate | ].
    unfold select_note in H |- *. simpl rows in H.
    rewrite find_map_hit in H by reflexivity.
    destruct (find (hit id_eq p) (rows db)) as [r | ] eqn:F;
      simpl in H; [ | discriminate].
    injection H as <- <-. exists r. simpl rows.
    rewrite find_map_hit, F by reflexivity. simpl.
    repeat split; auto.
  - unfold put_note in H. rewrite T in H. discriminate.
Qed.

(** C4. Delete on an id that matches no note is answered 404 and leaves
    the table as it was; Delete on an id that matches a note removes every
    row the id matches and no other, is answered 200 with the message
    "Note deleted successfully", and Get on the same id then answers
    404. *)
Theorem delete_removes_or_not_found (p : string) (db : database) :
  ((forall r, In r (rows db) -> id_eq p (id r) = false) ->
   delete_note_handler id_eq p db = ({| status := 404; body := Error "Note not found" None |}, db)
   /\ status (fst (delete_note_handler id_eq p db)) <> 200)
  /\
  ((exists r, In r (rows db) /\ id_eq p (id r) = true) ->
   exists db',
     delete_note_handler id_eq p db =
       ({| status := 200; body := Message "Note deleted successfully" |}, db')
     /\ (forall r, In r (rows db') <->
                   In r (rows db) /\ id_eq p (id r) = false)
     /\ get_note id_eq p db' = {| status := 404; body := Error "Note not found" None |}
     /\ fst (delete_note_handler id_eq p db') =
        {| status := 404; body := Error "Note not found" None |}).
Proof.
  unfold delete_note_handler, delete_note. split.
  - intros Hmiss.
    rewrite (filter_hit_nil id_eq p (rows db) Hmiss),
            (filter_miss_id id_eq p (rows db) Hmiss), db_eta.
    simpl. split; [reflexivity | discriminate].
  - intros Hex. destruct (exists_hit_find id_eq p (rows db) Hex) as [r Hr].
    destruct (find_hit_some id_eq p (rows db) r Hr) as [_ [_ Hne]].
    destruct (List.length (filter (hit id_eq p) (rows db)) =? 0)%nat eqn:L;
      [apply length_eqb_zero in L; contradiction | ].
    eexists. split; [reflexivity | ]. simpl rows. split; [ | split].
    + intros x. rewrite filter_In, negb_true_iff. reflexivity.
    + unfold get_note, select_note. simpl rows.
      rewrite find_after_delete. reflexivity.
    + rewrite filter_hit_nil; [reflexivity | ].
      intros x Hx. apply filter_In in Hx. destruct Hx as [_ Hx].
      apply negb_true_iff in Hx. exact Hx.
Qed.

End UpdateDelete.

Lemma update_validates_finds_overwrites_witness :
  put_note decimal_id_eq 160 "1" (JString "") (JString "milk") groceries_db
  = ({| status := 400; body := Error "Title is required" None |}, groceries_db)
  /\ put_note decimal_id_eq 160 "7" (JString "Groceries v2") (JString "milk")
              groceries_db
     = ({| status := 404; body := Error "Note not found" None |}, groceries_db)
  /\ fst (put_note decimal_id_eq 160 "1" (JString "Groceries v2")
                   (JString "milk") groceries_db)
     = {| status := 200; body := Row (mkNote 1 (Some "Groceries v2") (Some "milk") 100 160) |}.
Proof.
  split; [ | split].
  - apply (proj1 (update_validates_finds_overwrites
                    decimal_id_eq 160 "1" (JString "") (JString "milk")
                    groceries_db)).
    right; right; reflexivity.
  - apply (proj1 (proj2 (update_validates_finds_overwrites
                           decimal_id_eq 160 "7" (JString "Groceries v2")
                           (JString "milk") groceries_db))).
    + intros [H | [H | H]]; discriminate.
    + intros r [<- | []]. reflexivity.
  - destruct (proj2 (proj2 (update_validates_finds_overwrites
                              decimal_id_eq 160 "1" (JString "Groceries v2")
                              (JString "milk") groceries_db)))
      with (r := mkNote 1 (Some "Groceries") (Some "milk, eggs") 100 100)
      as [s [db' [E [H _]]]].
    + intros [H | [H | H]]; discriminate.
    + reflexivity.
    + rewrite H. injection E as <-. reflexivity.
Defined.

Lemma update_keeps_id_and_creation_witness :
  exists r,
    select_note decimal_id_eq "1" groceries_db = Some r
    /\ select_note decimal_id_eq "1"
         {| rows := [ mkNote 1 (Some "Groceries v2") (Some "milk") 100 160 ];
            seq := 1 |}
       = Some (mkNote 1 (Some "Groceries v2") (Some "milk") 100 160)
    /\ 1 = id r
    /\ 100 = created_at r
    /\ 160 = 160
    /\ (created_at r <= 160 -> 100 <= 160)
    /\ (created_at r < 160 <-> 100 < 160).
Proof.
  apply (update_keeps_id_and_creation
           decimal_id_eq 160 "1" (JString "Groceries v2") (JString "milk")
           groceries_db
           {| rows := [ mkNote 1 (Some "Groceries v2") (Some "milk") 100 160 ];
              seq := 1 |}
           (mkNote 1 (Some "Groceries v2") (Some "milk") 100 160)).
  reflexivity.
Defined.

(** C3 as stated fails: a note created and updated while the store's clock
    shows the same second ends with [updated_at] equal to [created_at]. *)
Lemma update_within_the_second :
  snd (post_note 100 100000 100000 (JString "Groceries")
                 (JString "milk, eggs") empty_db) = groceries_db
  /\ exists r,
       fst (put_note decimal_id_eq 100 "1" (JString "Groceries v2")
                     (JString "milk") groceries_db)
       = {| status := 200; body := Row r |}
       /\ id r = 1
       /\ created_at r = 100
       /\ updated_at r = 100
       /\ (created_at r <? updated_at r) = false.
Proof.
  split; [reflexivity | ].
  exists (mkNote 1 (Some "Groceries v2") (Some "milk") 100 100).
  repeat split.
Qed.

Lemma delete_removes_or_not_found_witness :
  (delete_note_handler decimal_id_eq "7" groceries_db
   = ({| status := 404; body := Error "Note not found" None |}, groceries_db)
   /\ status (fst (delete_note_handler decimal_id_eq "7" groceries_db)) <> 200)
  /\
  exists db',
    delete_note_handler decimal_id_eq "1" groceries_db =
      ({| status := 200; body := Message "Note deleted successfully" |}, db')
    /\ (forall r, In r (rows db') <->
                  In r (rows groceries_db) /\ decimal_id_eq "1" (id r) = false)
    /\ get_note decimal_id_eq "1" db' = {| status := 404; body := Error "Note not found" None |}
    /\ fst (delete_note_handler decimal_id_eq "1" db') =
       {| status := 404; body := Error "Note not found" None |}.
Proof.
  split.
  - apply (proj1 (delete_removes_or_not_found decimal_id_eq "7" groceries_db)).
    intros r [<- | []]. reflexivity.
  - apply (proj2 (delete_removes_or_not_found decimal_id_eq "1" groceries_db)).
    exists (mkNote 1 (Some "Groceries") (Some "milk, eggs") 100 100).
    split; [left | ]; reflexivity.
Defined.

(** The scenario of the specification, after the Create: Update, Delete,
    then Get. *)
Example groceries_scenario :
  put_note decimal_id_eq 160 "1" (JString "Groceries v2") (JString "milk")
           groceries_db
  = (res_json (Row (mkNote 1 (Some "Groceries v2") (Some "milk") 100 160)),
     {| rows := [ mkNote 1 (Some "Groceries v2") (Some "milk") 100 160 ];
        seq := 1 |})
  /\ delete_note_handler decimal_id_eq "1"
       {| rows := [ mkNote 1 (Some "Groceries v2") (Some "milk") 100 160 ];
          seq := 1 |}
     = (res_json (Message "Note deleted successfully"),
        {| rows := []; seq := 1 |})
  /\ get_note decimal_id_eq "1" {| rows := []; seq := 1 |}
     = res_error 404 "Note not found".
Proof. repeat split. Qed.

(* ================================================================== *)
(** * List *)

Lemma insert_desc_perm (r : note) (l : list note) :
  Permutation (r :: l) (insert_desc r l).
Proof.
  induction l as [ | x l IH]; simpl; [apply Permutation_refl | ].
  case (updated_at r <? updated_at x).
  - apply perm_trans with (x :: r :: l); [apply perm_swap | ].
    apply perm_skip. exact IH.
  - apply Permutation_refl.
Qed.

Lemma sort_desc_perm (l : list note) : Permutation l (sort_desc l).
Proof.
  induction l as [ | x l IH]; simpl; [constructor | ].
  apply perm_trans with (x :: sort_desc l).
  - apply perm_skip. exact IH.
  - apply insert_desc_perm.
Qed.

Lemma insert_desc_sorted (r : note) (l : list note) :
  StronglySorted newer_or_equal l ->
  StronglySorted newer_or_equal (insert_desc r l).
Proof.
  induction 1 as [ | x l Hs IH Hx]; simpl.
  - repeat constructor.
  - case_eq (updated_at r <? updated_at x); intros C.
    + apply Z.ltb_lt in C. constructor; [exact IH | ].
      apply Forall_forall. intros y Hy.
      apply (Permutation_in _ (Permutation_sym (insert_desc_perm r l))) in Hy.
      destruct Hy as [<- | Hy].
      * unfold newer_or_equal. lia.
      * rewrite Forall_forall in Hx. apply Hx. exact Hy.
    + apply Z.ltb_ge in C. constructor; [constructor; assumption | ].
      constructor; [exact C | ].
      rewrite Forall_forall in Hx |- *. intros y Hy.
      specialize (Hx y Hy). unfold newer_or_equal in *. lia.
Qed.

Lemma sort_desc_sorted (l : list note) :
  StronglySorted newer_or_equal (sort_desc l).
Proof.
  induction l as [ | x l IH]; simpl; [constructor | ].
  apply insert_desc_sorted. exact IH.
Qed.

(** A row strictly newer than every other row heads every listing the
    ORDER BY clause allows. *)
Lemma newest_heads_listing (old : list note) (n : note) (l : list note) :
  (forall r, In r old -> updated_at r < updated_at n) ->
  Permutation (old ++ [n]) l ->
  StronglySorted newer_or_equal l ->
  exists rest, l = n :: rest.
Proof.
  intros Hold Hp Hs.
  assert (Hn : In n l).
  { apply (Permutation_in _ Hp). apply in_or_app. right. left. reflexivity. }
  destruct l as [ | x rest]; [contradiction | ].
  assert (Hx : In x (old ++ [n])).
  { apply (Permutation_in _ (Permutation_sym Hp)). left. reflexivity. }
  apply in_app_or in Hx. destruct Hx as [Hx | [Hx | []]].
  - exfalso. destruct Hn as [-> | Hn].
    + specialize (Hold n Hx). lia.
    + inversion Hs as [ | ? ? _ Hall]; subst.
      rewrite Forall_forall in Hall. specialize (Hall n Hn).
      specialize (Hold x Hx). unfold newer_or_equal in Hall. lia.
  - subst x. exists rest. reflexivity.
Qed.

(** C5, as the code has it.  List answers 200 with all the stored notes,
    each once, ordered by [updated_at] descending; and after a Create
    served at a clock reading later than the [updated_at] of every stored
    note, the new note is the first of the List result (of every result
    the ORDER BY clause allows). *)
Theorem list_newest_first (db : database) :
  (exists l,
     get_notes db = {| status := 200; body := Rows l |}
     /\ ordered_listing db l)
  /\
  (forall now d1 d2 t c,
     ~ empty_or_missing t ->
     (forall r, In r (rows db) -> updated_at r < now) ->
     exists lastID s db',
       post_note now d1 d2 t c db =
         (res_json (Created lastID (JString s) (JString (defaulted c)) d1 d2),
          db')
       /\ (forall l, ordered_listing db' l ->
             exists rest,
               l = mkNote lastID (Some s) (Some (defaulted c)) now now
                   :: rest)
       /\ exists rest,
            get_notes db' =
            res_json (Rows (mkNote lastID (Some s) (Some (defaulted c))
                              now now :: rest))).
Proof.
  assert (L : forall d, ordered_listing d (select_all d)).
  { intros d. split; [apply sort_desc_perm | apply sort_desc_sorted]. }
  split.
  - exists (select_all db). split; [reflexivity | apply L].
  - intros now d1 d2 t c Ht Hnow.
    title_given t s Hne.
    exists (next_rowid db), s. eexists.
    split; [exact (post_note_run now d1 d2 s c db Hne) | ].
    assert (N : forall l,
               ordered_listing
                 {| rows := rows db ++
                      [mkNote (next_rowid db) (Some s) (Some (defaulted c))
                         now now];
                    seq := next_rowid db |} l ->
               exists rest,
                 l = mkNote (next_rowid db) (Some s) (Some (defaulted c))
                       now now :: rest).
    { intros l [Hp Hs]. simpl rows in Hp.
      apply (newest_heads_listing (rows db)); [exact Hnow | exact Hp | exact Hs]. }
    split; [exact N | ].
    destruct (N _ (L _)) as [rest Hrest].
    exists rest. unfold get_notes. rewrite Hrest. reflexivity.
Qed.

Lemma list_newest_first_witness :
  exists lastID s db',
    post_note 200 200000 200000 (JString "Chores") JNull two_notes_db =
      (res_json (Created lastID (JString s) (JString (defaulted JNull))
                   200000 200000), db')
    /\ (forall l, ordered_listing db' l ->
          exists rest,
            l = mkNote lastID (Some s) (Some (defaulted JNull)) 200 200
                :: rest)
    /\ exists rest,
         get_notes db' =
         res_json (Rows (mkNote lastID (Some s) (Some (defaulted JNull))
                           200 200 :: rest)).
Proof.
  apply (proj2 (list_newest_first two_notes_db)).
  - intros [H | [H | H]]; discriminate.
  - intros r [<- | [<- | []]]; simpl; lia.
Defined.

(** C5 as stated fails: a note created while the store's clock shows the
    second in which another note was last touched does not come first.
    The ORDER BY clause allows the older note first, and the rows of equal
    [updated_at] come out in the order of the table. *)
Lemma list_after_create_within_the_second :
  fst (post_note 100 100500 100500 (JString "Errands") JUndefined
                 groceries_db)
  = res_json (Created 2 (JString "Errands") (JString "") 100500 100500)
  /\ snd (post_note 100 100500 100500 (JString "Errands") JUndefined
                 groceries_db)
  = {| rows := [ mkNote 1 (Some "Groceries") (Some "milk, eggs") 100 100;
                 mkNote 2 (Some "Errands") (Some "") 100 100 ];
       seq := 2 |}
  /\ get_notes (snd (post_note 100 100500 100500 (JString "Errands")
                               JUndefined groceries_db))
     = res_json (Rows [ mkNote 1 (Some "Groceries") (Some "milk, eggs")
                          100 100;
                        mkNote 2 (Some "Errands") (Some "") 100 100 ])
  /\ ordered_listing
       (snd (post_note 100 100500 100500 (JString "Errands") JUndefined
                       groceries_db))
       [ mkNote 1 (Some "Groceries") (Some "milk, eggs") 100 100;
         mkNote 2 (Some "Errands") (Some "") 100 100 ].
Proof.
  split; [reflexivity | ]. split; [reflexivity | ]. split; [reflexivity | ].
  split; [apply Permutation_refl | ].
  repeat constructor; unfold newer_or_equal; simpl; lia.
Qed.

Example list_two_notes :
  get_notes two_notes_db
  = res_json (Rows [ mkNote 2 (Some "Errands") (Some "") 130 170;
                     mkNote 1 (Some "Groceries") (Some "milk, eggs")
                       100 100 ]).
Proof. reflexivity. Qed.

(* ================================================================== *)
(** * Summarize *)

Lemma starts_with_iff (needle hay : string) :
  starts_with needle hay = true <-> exists rest, hay = needle ++ rest.
Proof.
  revert hay. induction needle as [ | a n IH]; intros hay; simpl.
  - split; [intros _; exists hay; reflexivity | reflexivity].
  - destruct hay as [ | b h].
    + split; [discriminate | intros [rest H]; discriminate].
    + rewrite andb_true_iff, Ascii.eqb_eq, IH. split.
      * intros [-> [rest ->]]. exists rest. reflexivity.
      * intros [rest H]. injection H as -> ->. split; eauto.
Qed.

(** [includes] finds the needle exactly when the text has it as a
    contiguous part. *)
Lemma includes_iff (needle hay : string) :
  includes needle hay = true <-> contains needle hay.
Proof.
  unfold contains.
  induction hay as [ | b h IH].
  - simpl. rewrite orb_false_r, starts_with_iff. split.
    + intros [rest H]. exists "", rest. exact H.
    + intros [[ | a before] [rest H]]; [exists rest; exact H | discriminate].
  - simpl. rewrite orb_true_iff, IH.
    change (match needle with
            | "" => true
            | String a n' => (a =? b)%char && starts_with n' h
            end) with (starts_with needle (String b h)).
    rewrite starts_with_iff. split.
    + intros [[rest H] | [before [rest H]]].
      * exists "", rest. exact H.
      * exists (String b before), rest. simpl. rewrite H. reflexivity.
    + intros [[ | a before] [rest H]].
      * left. exists rest. exact H.
      * right. injection H as _ H. exists before, rest. exact H.
Qed.

Lemma includes_false_iff (needle hay : string) :
  includes needle hay = false <-> ~ contains needle hay.
Proof.
  rewrite <- includes_iff. destruct (includes needle hay); split;
    congruence.
Qed.

Lemma errorMessage_failure_text (st : Z) (em tm : jsval) :
  ok st = false ->
  forall ch,
    failure_text (Resolved st (ErrorData em tm) ch)
    = Some (errorMessage st em tm).
Proof.
  intros H ch. simpl. rewrite H. unfold errorMessage.
  destruct em as [ | | [ | a e]]; destruct tm as [ | | [ | b m]];
    reflexivity.
Qed.

(** Whatever the failure, the answer is the [catch] block's, on its
    text. *)
Lemma after_fetch_failure (env : environment) (o : fetch_result) (m : string) :
  failure_text o = Some m -> after_fetch env o = on_error env m.
Proof.
  destruct o as [m' | st [em tm | m'] ch]; simpl.
  - intros H. injection H as ->. reflexivity.
  - destruct (ok st) eqn:K; simpl.
    + destruct ch; intros H; [discriminate | ].
      injection H as ->. reflexivity.
    + intros H. pose proof (errorMessage_failure_text st em tm K ch) as E.
      simpl in E. rewrite K in E. rewrite E in H.
      injection H as <-. reflexivity.
  - destruct (ok st); simpl.
    + destruct ch; intros H; [discriminate | ].
      injection H as ->. reflexivity.
    + intros H. injection H as ->. reflexivity.
Qed.

Lemma summarize_fetch (env : environment) (text : jsval)
      (rq : fetch_request) (k : fetch_result -> response) :
  summarize env text = Fetch rq k ->
  rq = summarize_request env text /\ k = after_fetch env.
Proof.
  unfold summarize.
  destruct (text_missing text); [discriminate | ].
  destruct (truthy (XAI_API_KEY env)); simpl; [ | discriminate].
  intros H. injection H as <- <-. split; reflexivity.
Qed.

(** C6. A Summarize request whose text is missing, empty or made of white
    space only is answered 400 "Text is required for summarization", and
    the handler stops there: no request goes to the upstream API. *)
Theorem summarize_requires_text (env : environment) (text : jsval) :
  text = JUndefined \/ text = JNull \/
  (exists s, text = JString s /\ whitespace_only s) ->
  summarize env text =
    Respond {| status := 400;
               body := Error "Text is required for summarization" None |}
  /\ forall upstream,
       run upstream (summarize env text) =
       ({| status := 400;
           body := Error "Text is required for summarization" None |}, []).
Proof.
  intros H. apply text_missing_iff in H.
  assert (E : summarize env text =
              Respond (res_error 400 "Text is required for summarization"))
    by (unfold summarize; rewrite H; reflexivity).
  split; [exact E | ].
  intros upstream. rewrite E. reflexivity.
Qed.

Lemma summarize_requires_text_witness :
  summarize with_key (JString "  ") =
    Respond {| status := 400;
               body := Error "Text is required for summarization" None |}
  /\ forall upstream,
       run upstream (summarize with_key (JString "  ")) =
       ({| status := 400;
           body := Error "Text is required for summarization" None |}, []).
Proof.
  apply (summarize_requires_text with_key (JString "  ")).
  right; right. exists "  ". split; [reflexivity | ].
  repeat constructor.
Defined.

(** C7. A Summarize request whose text is not empty once trimmed, served
    while [XAI_API_KEY] is not set (or set to nothing), is answered 500
    with the message that the key is not configured, and no request goes
    to the upstream API. *)
Theorem summarize_requires_credential (env : environment) (s : string) :
  ~ whitespace_only s ->
  credential_absent env ->
  summarize env (JString s) =
    Respond {| status := 500;
               body := Error "xAI API key not configured. Please set XAI_API_KEY in your .env file."
                         None |}
  /\ forall upstream,
       snd (run upstream (summarize env (JString s))) = []
       /\ status (fst (run upstream (summarize env (JString s)))) = 500.
Proof.
  intros Hs Hk.
  assert (M : text_missing (JString s) = false).
  { destruct (text_missing (JString s)) eqn:M; [ | reflexivity].
    apply text_missing_iff in M.
    destruct M as [M | [M | [s' [M W]]]]; try discriminate.
    injection M as <-. contradiction. }
  assert (K : truthy (XAI_API_KEY env) = false).
  { unfold XAI_API_KEY. destruct Hk as [-> | ->]; reflexivity. }
  assert (E : summarize env (JString s) =
              Respond (res_error 500
                "xAI API key not configured. Please set XAI_API_KEY in your .env file."))
    by (unfold summarize; rewrite M, K; reflexivity).
  split; [exact E | ].
  intros upstream. rewrite E. split; reflexivity.
Qed.

Lemma summarize_requires_credential_witness :
  summarize without_key (JString "A long note.") =
    Respond {| status := 500;
               body := Error "xAI API key not configured. Please set XAI_API_KEY in your .env file."
                         None |}
  /\ forall upstream,
       snd (run upstream (summarize without_key (JString "A long note."))) = []
       /\ status (fst (run upstream
                         (summarize without_key (JString "A long note."))))
          = 500.
Proof.
  apply (summarize_requires_credential without_key "A long note.").
  - intros H. inversion H as [ | ? ? C _]. discriminate C.
  - left. reflexivity.
Defined.

(** C8. When the one upstream call of Summarize fails, the answer is
    chosen from the text of the failure alone: 401 "Invalid xAI API key"
    when the text has "401" or "Unauthorized" in it; otherwise 429 when it
    has "429" or "rate limit" in it; otherwise 500 with the generic
    message, the text of the failure being attached as [details] when
    [NODE_ENV] is "development" and on no other setting (so never in
    production). *)
Theorem upstream_failures_classified
  (env : environment) (text : jsval)
  (rq : fetch_request) (k : fetch_result -> response)
  (o : fetch_result) (m : string) :
  summarize env text = Fetch rq k ->
  failure_text o = Some m ->
  (contains "401" m \/ contains "Unauthorized" m ->
   k o = {| status := 401; body := Error "Invalid xAI API key" None |})
  /\
  (~ contains "401" m -> ~ contains "Unauthorized" m ->
   contains "429" m \/ contains "rate limit" m ->
   k o = {| status := 429;
            body := Error "xAI API rate limit exceeded. Please try again later."
                      None |})
  /\
  (~ contains "401" m -> ~ contains "Unauthorized" m ->
   ~ contains "429" m -> ~ contains "rate limit" m ->
   exists d,
     k o = {| status := 500;
              body := Error "Failed to summarize text. Please try again." d |}
     /\ (env_NODE_ENV env = Some "development" -> d = Some m)
     /\ (env_NODE_ENV env <> Some "development" -> d = None)
     /\ (env_NODE_ENV env = Some "production" -> d = None)).
Proof.
  intros Hs Hm.
  destruct (summarize_fetch env text rq k Hs) as [_ ->].
  rewrite (after_fetch_failure env o m Hm). unfold on_error.
  split; [ | split].
  - intros [H | H]; apply includes_iff in H; rewrite H;
      [ | rewrite orb_true_r]; reflexivity.
  - intros A B H. apply includes_false_iff in A, B. rewrite A, B. simpl.
    destruct H as [H | H]; apply includes_iff in H; rewrite H;
      [ | rewrite orb_true_r]; reflexivity.
  - intros A B C D. apply includes_false_iff in A, B, C, D.
    rewrite A, B, C, D. simpl.
    destruct (env_NODE_ENV env) as [e | ] eqn:N.
    + destruct (String.eqb_spec e "development") as [-> | Hne].
      * exists (Some m). repeat split; congruence.
      * exists None. repeat split; congruence.
    + exists None. repeat split; congruence.
Qed.

Lemma upstream_failures_classified_witness :
  after_fetch development (Resolved 503 (ErrorData JUndefined JNull) (Content ""))
  = {| status := 500;
       body := Error "Failed to summarize text. Please try again."
                 (Some "API returned status 503") |}.
Proof.
  destruct (upstream_failures_classified
              development (JString "A long note.")
              (summarize_request development (JString "A long note."))
              (after_fetch development)
              (Resolved 503 (ErrorData JUndefined JNull) (Content ""))
              "API returned status 503" eq_refl eq_refl)
    as [_ [_ H]].
  assert (N : forall needle,
             includes needle "API returned status 503" = false ->
             ~ contains needle "API returned status 503")
    by (intros needle; apply includes_false_iff).
  destruct (H (N "401" eq_refl) (N "Unauthorized" eq_refl)
              (N "429" eq_refl) (N "rate limit" eq_refl))
    as [d [E [D _]]].
  rewrite E, (D eq_refl). reflexivity.
Defined.

(** The classification at work.  A response without a readable body is
    known by its status only, which the fallback text carries. *)
Example upstream_401_without_body :
  after_fetch with_key (Resolved 401 (ErrorData JUndefined JUndefined) (Content ""))
  = res_error 401 "Invalid xAI API key".
Proof. reflexivity. Qed.

Example upstream_429_rate_limit :
  after_fetch with_key
    (Resolved 429 (ErrorData (JString "You have hit the rate limit")
                             JUndefined)
       (Content ""))
  = res_error 429 "xAI API rate limit exceeded. Please try again later.".
Proof. reflexivity. Qed.

Example upstream_network_failure :
  after_fetch with_key (Rejected "fetch failed")
  = {| status := 500;
       body := Error "Failed to summarize text. Please try again." None |}.
Proof. reflexivity. Qed.

(** The text decides, not the status: a 401 whose body words the refusal
    otherwise is answered 500. *)
Example upstream_401_other_words :
  after_fetch with_key
    (Resolved 401 (ErrorData (JString "Incorrect API key provided")
                             JUndefined)
       (Content ""))
  = {| status := 500;
       body := Error "Failed to summarize text. Please try again." None |}.
Proof. reflexivity. Qed.

Example upstream_success :
  run (fun _ => Resolved 200 (ErrorData JUndefined JUndefined)
                  (Content " A summary. "))
      (summarize with_key (JString "A long note."))
  = (res_json (Summary "A summary."),
     [ summarize_request with_key (JString "A long note.") ]).
Proof. reflexivity. Qed.

(* ================================================================== *)
(** * The invariant of the table *)

Section Invariant.

Variable id_eq : string -> Z -> bool.

(** The schema's share: no statement leaves a row without a title,
    whatever it is asked to store. *)
Lemma insert_note_not_null (now : Z) (t c : cell) (db db' : database) (k : Z) :
  insert_note now t c db = inr (k, db') ->
  Forall title_not_null (rows db) -> Forall title_not_null (rows db').
Proof.
  unfold insert_note. destruct t as [s | ]; [ | discriminate].
  intros H Hdb. injection H as _ <-. simpl.
  apply Forall_app. split; [exact Hdb | ].
  constructor; [ | constructor]. unfold title_not_null. simpl. discriminate.
Qed.

Lemma update_note_not_null
      (now : Z) (t c : cell) (p : string) (db db' : database) (n : nat) :
  update_note id_eq now t c p db = inr (n, db') ->
  Forall title_not_null (rows db) -> Forall title_not_null (rows db').
Proof.
  unfold update_note. destruct t as [s | ].
  - intros H Hdb. injection H as _ <-. simpl.
    rewrite Forall_forall in Hdb |- *. intros r Hr.
    apply in_map_iff in Hr. destruct Hr as [x [<- Hx]].
    destruct (hit id_eq p x); [ | apply Hdb; exact Hx].
    unfold title_not_null. simpl. discriminate.
  - destruct (existsb (hit id_eq p) (rows db)); [discriminate | ].
    intros H Hdb. injection H as _ <-. exact Hdb.
Qed.

(** The handlers' share: the title they let through is not empty. *)
Lemma post_note_titles (now d1 d2 : Z) (t c : jsval) (db : database) :
  titles_nonempty db -> titles_nonempty (snd (post_note now d1 d2 t c db)).
Proof.
  intros Hdb. destruct (truthy t) eqn:T.
  - destruct (truthy_true_string t T) as [s [-> Hs]].
    rewrite (post_note_run now d1 d2 s c db Hs).
    unfold titles_nonempty. simpl. apply Forall_app. split; [exact Hdb | ].
    constructor; [ | constructor]. exists s. split; [reflexivity | exact Hs].
  - unfold post_note. rewrite T. exact Hdb.
Qed.

Lemma put_note_titles (now : Z) (p : string) (t c : jsval) (db : database) :
  titles_nonempty db -> titles_nonempty (snd (put_note id_eq now p t c db)).
Proof.
  intros Hdb. destruct (truthy t) eqn:T.
  - destruct (truthy_true_string t T) as [s [-> Hs]].
    rewrite (put_note_run id_eq now p s c db Hs). cbv zeta.
    assert (H : Forall title_nonempty
                  (map (fun r => if hit id_eq p r
                                 then set_note now (Some s)
                                        (Some (defaulted c)) r
                                 else r) (rows db))).
    { unfold titles_nonempty in Hdb. rewrite Forall_forall in Hdb |- *.
      intros r Hr. apply in_map_iff in Hr. destruct Hr as [x [<- Hx]].
      destruct (hit id_eq p x); [ | apply Hdb; exact Hx].
      exists s. split; [reflexivity | exact Hs]. }
    destruct (List.length (filter (hit id_eq p) (rows db)) =? 0)%nat;
      [exact H | ].
    destruct (select_note id_eq p _); exact H.
  - unfold put_note. rewrite T. exact Hdb.
Qed.

Lemma delete_note_titles (p : string) (db : database) :
  titles_nonempty db ->
  titles_nonempty (snd (delete_note_handler id_eq p db)).
Proof.
  intros Hdb. unfold delete_note_handler, delete_note.
  assert (H : Forall title_nonempty
                (filter (fun r => negb (hit id_eq p r)) (rows db))).
  { unfold titles_nonempty in Hdb. rewrite Forall_forall in Hdb |- *.
    intros r Hr. apply filter_In in Hr. apply Hdb. tauto. }
  destruct (List.length (filter (hit id_eq p) (rows db)) =? 0)%nat; exact H.
Qed.

Lemma handle_titles (k : clock) (o : operation) (db : database) :
  titles_nonempty db -> titles_nonempty (snd (handle id_eq k o db)).
Proof.
  intros Hdb. destruct o as [ | p | t c | p t c | p]; simpl.
  - exact Hdb.
  - exact Hdb.
  - apply post_note_titles. exact Hdb.
  - apply put_note_titles. exact Hdb.
  - apply delete_note_titles. exact Hdb.
Qed.

(** C9. Every stored note has a title that is not empty: the table starts
    empty, each of List, Get, Create, Update and Delete leaves a table
    with this property in a table with it, so every table the service
    reaches has it; and the INSERT and the UPDATE, whatever they are given,
    never leave a row whose title is NULL. *)
Theorem stored_titles_nonempty :
  titles_nonempty empty_db
  /\ (forall k o db,
        titles_nonempty db -> titles_nonempty (snd (handle id_eq k o db)))
  /\ (forall db, reachable id_eq db -> titles_nonempty db)
  /\ (forall now t c db k db',
        insert_note now t c db = inr (k, db') ->
        Forall title_not_null (rows db) -> Forall title_not_null (rows db'))
  /\ (forall now t c p db n db',
        update_note id_eq now t c p db = inr (n, db') ->
        Forall title_not_null (rows db) -> Forall title_not_null (rows db')).
Proof.
  split; [constructor | ].
  split; [exact handle_titles | ].
  split.
  - induction 1 as [ | k o db _ IH].
    + constructor.
    + apply handle_titles. exact IH.
  - split.
    + intros now t c db k db'. apply insert_note_not_null.
    + intros now t c p db n db'. apply update_note_not_null.
Qed.

(** C10. A title made of white space only (and not empty) is accepted by
    Create and by Update and stored as it is, no trimming being applied to
    it, while the same string as the text of Summarize is refused with
    400. *)
Theorem whitespace_title_accepted (s : string) :
  s <> "" ->
  whitespace_only s ->
  (forall now d1 d2 c db,
     exists lastID db',
       post_note now d1 d2 (JString s) c db =
         ({| status := 200; body := Created lastID (JString s) (JString (defaulted c)) d1 d2 |},
          db')
       /\ In (mkNote lastID (Some s) (Some (defaulted c)) now now) (rows db'))
  /\
  (forall now p c db r,
     select_note id_eq p db = Some r ->
     exists db',
       put_note id_eq now p (JString s) c db =
         ({| status := 200; body := Row (mkNote (id r) (Some s) (Some (defaulted c))
                           (created_at r) now) |}, db')
       /\ In (mkNote (id r) (Some s) (Some (defaulted c)) (created_at r) now)
             (rows db'))
  /\
  (forall env,
     summarize env (JString s) =
     Respond ({| status := 400; body := Error "Text is required for summarization" None |})).
Proof.
  intros Hne Hws. split; [ | split].
  - intros now d1 d2 c db. exists (next_rowid db). eexists.
    split; [apply post_note_run; exact Hne | ].
    simpl. apply in_or_app. right. left. reflexivity.
  - intros now p c db r Hr.
    rewrite (put_note_run id_eq now p s c db Hne). cbv zeta.
    destruct (find_hit_some id_eq p (rows db) r Hr) as [Hin [Hhit Hnil]].
    destruct (List.length (filter (hit id_eq p) (rows db)) =? 0)%nat eqn:L;
      [apply length_eqb_zero in L; contradiction | ].
    unfold select_note in Hr |- *. simpl rows.
    rewrite find_map_hit, Hr by reflexivity. simpl.
    eexists. split; [reflexivity | ]. simpl.
    apply in_map_iff. exists r. split; [ | exact Hin].
    unfold hit. rewrite Hhit. reflexivity.
  - intros env. unfold summarize.
    replace (text_missing (JString s)) with true; [reflexivity | ].
    symmetry. apply text_missing_iff. right; right. exists s. split; auto.
Qed.

End Invariant.

Lemma stored_titles_nonempty_witness : titles_nonempty groceries_db.
Proof.
  apply (proj1 (proj2 (proj2 (stored_titles_nonempty decimal_id_eq)))).
  exact (reachable_step decimal_id_eq (mkClock 100 100000 100000)
           (Create (JString "Groceries") (JString "milk, eggs"))
           empty_db (reachable_empty decimal_id_eq)).
Defined.

Lemma whitespace_title_accepted_witness :
  (exists lastID db',
     post_note 100 100000 100000 (JString " ") JUndefined empty_db =
       ({| status := 200; body := Created lastID (JString " ") (JString "") 100000 100000 |},
        db')
     /\ In (mkNote lastID (Some " ") (Some "") 100 100) (rows db'))
  /\ (exists db',
        put_note decimal_id_eq 160 "1" (JString " ") JUndefined groceries_db =
          ({| status := 200; body := Row (mkNote 1 (Some " ") (Some "") 100 160) |}, db')
        /\ In (mkNote 1 (Some " ") (Some "") 100 160) (rows db'))
  /\ summarize with_key (JString " ") =
     Respond ({| status := 400; body := Error "Text is required for summarization" None |}).
Proof.
  assert (N : " " <> "") by discriminate.
  assert (W : whitespace_only " ") by (repeat constructor).
  destruct (whitespace_title_accepted decimal_id_eq " " N W) as [A [B C]].
  split; [ | split].
  - exact (A 100 100000 100000 JUndefined empty_db).
  - exact (B 160 "1" JUndefined groceries_db
             (mkNote 1 (Some "Groceries") (Some "milk, eggs") 100 100)
             eq_refl).
  - exact (C with_key).
Defined.

(* ================================================================== *)
(** * Rowids *)

Lemma decimal_inj (k k' : Z) : decimal k = decimal k' -> k = k'.
Proof.
  unfold decimal. intros H.
  apply DecimalZ.to_int_inj.
  assert (N : forall z, NilZero.int_of_string
                          (NilZero.string_of_int (Z.to_int z))
                        = Some (Z.to_int z)).
  { intros z. apply NilZero.isi.
    - destruct z; simpl; try discriminate.
      unfold Pos.to_int. intros E. injection E as E.
      apply (DecimalPos.Unsigned.to_uint_nonnil _ E).
    - destruct z; simpl; try discriminate.
      intros E. injection E as E.
      apply (DecimalPos.Unsigned.to_uint_nonnil _ E). }
  pose proof (N k) as A. rewrite H, (N k') in A. congruence.
Qed.

Lemma decimal_id_eq_reads_decimal : reads_decimal decimal_id_eq.
Proof.
  intros k k'. unfold decimal_id_eq. rewrite String.eqb_eq. split.
  - apply decimal_inj.
  - intros ->. reflexivity.
Qed.

Lemma max_rowid_nonneg (l : list note) : 0 <= max_rowid l.
Proof. induction l as [ | x l IH]; simpl; lia. Qed.

Lemma next_rowid_above_seq (db : database) :
  seq db < next_rowid db /\ 1 <= next_rowid db.
Proof.
  unfold next_rowid. pose proof (max_rowid_nonneg (rows db)). lia.
Qed.

Lemma sorted_ids_snoc (l : list note) (n : note) :
  StronglySorted Z.lt (map id l) ->
  (forall r, In r l -> id r < id n) ->
  StronglySorted Z.lt (map id (l ++ [n])).
Proof.
  induction l as [ | x l IH]; simpl; intros Hs Hn.
  - repeat constructor.
  - apply StronglySorted_inv in Hs. destruct Hs as [Hs Hx].
    constructor.
    + apply IH; [exact Hs | ]. intros r Hr. apply Hn. right; exact Hr.
    + rewrite map_app, Forall_app. split; [exact Hx | ].
      constructor; [ | constructor]. simpl. apply Hn. left; reflexivity.
Qed.

Lemma sorted_ids_filter (g : note -> bool) (l : list note) :
  StronglySorted Z.lt (map id l) ->
  StronglySorted Z.lt (map id (filter g l)).
Proof.
  induction l as [ | x l IH]; simpl; intros Hs; [constructor | ].
  apply StronglySorted_inv in Hs. destruct Hs as [Hs Hx].
  destruct (g x); simpl; [ | apply IH; exact Hs].
  constructor; [apply IH; exact Hs | ].
  rewrite Forall_forall in Hx |- *. intros k Hk. apply Hx.
  apply in_map_iff in Hk. destruct Hk as [r [<- Hr]].
  apply filter_In in Hr. apply in_map. tauto.
Qed.

Lemma map_id_rewritten (g : note -> bool) (f : note -> note) (l : list note) :
  (forall r, id (f r) = id r) ->
  map id (map (fun r => if g r then f r else r) l) = map id l.
Proof.
  intros Hf. rewrite map_map. apply map_ext. intros r.
  destruct (g r); [apply Hf | reflexivity].
Qed.

Lemma no_hit_above (g : Z -> bool) (a : Z) (l : list note) :
  (forall k k', g k = true -> g k' = true -> k = k') ->
  g a = true ->
  Forall (Z.lt a) (map id l) ->
  filter (fun r => g (id r)) l = [].
Proof.
  intros Hg Ha. induction l as [ | y l IH]; simpl; intros Hl;
    [reflexivity | ].
  inversion Hl as [ | ? ? Hy Hrest]; subst.
  destruct (g (id y)) eqn:Ey.
  - specialize (Hg _ _ Ha Ey). lia.
  - apply IH. exact Hrest.
Qed.

(** Rows with growing rowids and a comparison that holds of one number at
    most: the WHERE clause selects one row at most. *)
Lemma one_hit_at_most (g : Z -> bool) (l : list note) :
  (forall k k', g k = true -> g k' = true -> k = k') ->
  StronglySorted Z.lt (map id l) ->
  (List.length (filter (fun r => g (id r)) l) <= 1)%nat.
Proof.
  intros Hg. induction l as [ | x l IH]; simpl; intros Hs; [lia | ].
  apply StronglySorted_inv in Hs. destruct Hs as [Hs Hx].
  destruct (g (id x)) eqn:E; [ | apply IH; exact Hs].
  rewrite (no_hit_above g (id x) l Hg E Hx). simpl. lia.
Qed.

Lemma filter_split_length {A : Type} (g : A -> bool) (l : list A) :
  (List.length (filter g l)
   + List.length (filter (fun x => negb (g x)) l))%nat = List.length l.
Proof.
  induction l as [ | x l IH]; simpl; [reflexivity | ].
  destruct (g x); simpl; lia.
Qed.

Section Rowids.

Variable id_eq : string -> Z -> bool.

Lemma post_note_rowids (now d1 d2 : Z) (t c : jsval) (db : database) :
  rowids_in_order db ->
  rowids_in_order (snd (post_note now d1 d2 t c db)).
Proof.
  intros [Hs Hb]. destruct (truthy t) eqn:T.
  - destruct (truthy_true_string t T) as [s [-> Hne]].
    rewrite (post_note_run now d1 d2 s c db Hne). simpl.
    destruct (next_rowid_above_seq db) as [Hseq Hpos].
    split; simpl.
    + apply sorted_ids_snoc; [exact Hs | ].
      intros r Hr. simpl. apply next_rowid_fresh. exact Hr.
    + apply Forall_app. split.
      * rewrite Forall_forall in Hb |- *. intros r Hr.
        specialize (Hb r Hr). simpl in *. lia.
      * constructor; [simpl; lia | constructor].
  - unfold post_note. rewrite T. split; assumption.
Qed.

Lemma put_note_rowids (now : Z) (p : string) (t c : jsval) (db : database) :
  rowids_in_order db ->
  rowids_in_order (snd (put_note id_eq now p t c db)).
Proof.
  intros [Hs Hb]. destruct (truthy t) eqn:T.
  - destruct (truthy_true_string t T) as [s [-> Hne]].
    rewrite (put_note_run id_eq now p s c db Hne). cbv zeta.
    assert (H : rowids_in_order
                  {| rows := map (fun r => if hit id_eq p r
                                           then set_note now (Some s)
                                                  (Some (defaulted c)) r
                                           else r) (rows db);
                     seq := seq db |}).
    { split; simpl.
      - rewrite map_id_rewritten by reflexivity. exact Hs.
      - rewrite Forall_forall in Hb |- *. intros r Hr.
        apply in_map_iff in Hr. destruct Hr as [x [<- Hx]].
        destruct (hit id_eq p x); [simpl | ]; apply Hb; exact Hx. }
    destruct (List.length (filter (hit id_eq p) (rows db)) =? 0)%nat;
      [exact H | ].
    destruct (select_note id_eq p _); exact H.
  - unfold put_note. rewrite T. split; assumption.
Qed.

Lemma delete_note_rowids (p : string) (db : database) :
  rowids_in_order db ->
  rowids_in_order (snd (delete_note_handler id_eq p db)).
Proof.
  intros [Hs Hb]. unfold delete_note_handler, delete_note.
  assert (H : rowids_in_order
                {| rows := filter (fun r => negb (hit id_eq p r)) (rows db);
                   seq := seq db |}).
  { split; simpl.
    - apply sorted_ids_filter. exact Hs.
    - rewrite Forall_forall in Hb |- *. intros r Hr.
      apply filter_In in Hr. apply Hb. tauto. }
  destruct (List.length (filter (hit id_eq p) (rows db)) =? 0)%nat; exact H.
Qed.

Lemma handle_rowids (k : clock) (o : operation) (db : database) :
  rowids_in_order db -> rowids_in_order (snd (handle id_eq k o db)).
Proof.
  intros H. destruct o as [ | p | t c | p t c | p]; simpl.
  - exact H.
  - exact H.
  - apply post_note_rowids. exact H.
  - apply put_note_rowids. exact H.
  - apply delete_note_rowids. exact H.
Qed.

Lemma reachable_rowids (db : database) :
  reachable id_eq db -> rowids_in_order db.
Proof.
  induction 1 as [ | k o db _ IH].
  - split; constructor.
  - apply handle_rowids. exact IH.
Qed.

(** No request lowers the counter. *)
Lemma handle_seq (k : clock) (o : operation) (db : database) :
  seq db <= seq (snd (handle id_eq k o db)).
Proof.
  destruct o as [ | p | t c | p t c | p]; simpl; try lia.
  - destruct (truthy t) eqn:T.
    + destruct (truthy_true_string t T) as [s [-> Hne]].
      rewrite (post_note_run (now k) (date1 k) (date2 k) s c db Hne).
      simpl. destruct (next_rowid_above_seq db). lia.
    + unfold post_note. rewrite T. simpl. lia.
  - destruct (truthy t) eqn:T.
    + destruct (truthy_true_string t T) as [s [-> Hne]].
      rewrite (put_note_run id_eq (now k) p s c db Hne). cbv zeta.
      destruct (List.length (filter (hit id_eq p) (rows db)) =? 0)%nat;
        [simpl; lia | ].
      destruct (select_note id_eq p _); simpl; lia.
    + unfold put_note. rewrite T. simpl. lia.
  - unfold delete_note_handler, delete_note.
    destruct (List.length (filter (hit id_eq p) (rows db)) =? 0)%nat;
      simpl; lia.
Qed.

(** Only Create answers with a created note, and the id in it is the
    rowid the table gives next. *)
Lemma handle_created (k : clock) (o : operation) (db : database)
      (lastID : Z) (t c : jsval) (d1 d2 : Z) :
  body (fst (handle id_eq k o db)) = Created lastID t c d1 d2 ->
  lastID = next_rowid db /\ seq (snd (handle id_eq k o db)) = lastID.
Proof.
  destruct o as [ | p | t' c' | p t' c' | p]; simpl.
  - discriminate.
  - unfold get_note. destruct (select_note id_eq p db); discriminate.
  - destruct (truthy t') eqn:T.
    + destruct (truthy_true_string t' T) as [s [-> Hne]].
      rewrite (post_note_run (now k) (date1 k) (date2 k) s c' db Hne).
      simpl. intros H. injection H as <- _ _ _ _. split; reflexivity.
    + unfold post_note. rewrite T. discriminate.
  - destruct (truthy t') eqn:T.
    + destruct (truthy_true_string t' T) as [s [-> Hne]].
      rewrite (put_note_run id_eq (now k) p s c' db Hne). cbv zeta.
      destruct (List.length (filter (hit id_eq p) (rows db)) =? 0)%nat;
        [discriminate | ].
      destruct (select_note id_eq p _); discriminate.
    + unfold put_note. rewrite T. discriminate.
  - unfold delete_note_handler, delete_note.
    destruct (List.length (filter (hit id_eq p) (rows db)) =? 0)%nat;
      discriminate.
Qed.

End Rowids.

Lemma sorted_ids_NoDup (l : list Z) : StronglySorted Z.lt l -> NoDup l.
Proof.
  induction 1 as [ | a l _ IH Ha]; constructor; [ | exact IH].
  intros Hin. rewrite Forall_forall in Ha. specialize (Ha a Hin). lia.
Qed.

Lemma same_id_same_row (l : list note) (r r' : note) :
  NoDup (map id l) -> In r l -> In r' l -> id r = id r' -> r = r'.
Proof.
  induction l as [ | x l IH]; simpl; [contradiction | ].
  intros Hnd Hr Hr' E. inversion Hnd as [ | ? ? Hx Hl]; subst.
  destruct Hr as [-> | Hr]; destruct Hr' as [-> | Hr'].
  - reflexivity.
  - exfalso. apply Hx. rewrite E. apply in_map. exact Hr'.
  - exfalso. apply Hx. rewrite <- E. apply in_map. exact Hr.
  - apply IH; assumption.
Qed.

Lemma find_snoc_last (g : note -> bool) (l : list note) (n : note) :
  (forall r, In r l -> g r = false) -> g n = true ->
  find g (l ++ [n]) = Some n.
Proof.
  induction l as [ | x l IH]; simpl; intros Hl Hn.
  - rewrite Hn. reflexivity.
  - rewrite (Hl x (or_introl eq_refl)). apply IH; [ | exact Hn].
    intros r Hr. apply Hl. right; exact Hr.
Qed.

Section RowidFacts.

Variable id_eq : string -> Z -> bool.

(** X1. In every table the service reaches, the ids of the stored notes
    are distinct, positive and not above the counter, and two stored notes
    with the same id are the same note. *)
Theorem stored_ids_distinct (db : database) :
  reachable id_eq db ->
  NoDup (map id (rows db))
  /\ (forall r, In r (rows db) -> 1 <= id r <= seq db)
  /\ (forall r r', In r (rows db) -> In r' (rows db) ->
                   id r = id r' -> r = r').
Proof.
  intros H. destruct (reachable_rowids id_eq db H) as [Hs Hb].
  assert (Hnd : NoDup (map id (rows db))) by (apply sorted_ids_NoDup; exact Hs).
  split; [exact Hnd | ]. split.
  - rewrite Forall_forall in Hb. exact Hb.
  - intros r r'. apply same_id_same_row. exact Hnd.
Qed.

(** X2. Ids are never reused: whatever requests follow (deletions among
    them), every id a later Create assigns is above the counter and above
    the id of every note the table held. *)
Theorem created_ids_never_reused
  (db : database) (reqs : list (clock * operation)) (resp : response)
  (lastID : Z) (t c : jsval) (d1 d2 : Z) :
  reachable id_eq db ->
  In resp (fst (handle_all id_eq reqs db)) ->
  body resp = Created lastID t c d1 d2 ->
  seq db < lastID /\ forall r, In r (rows db) -> id r < lastID.
Proof.
  intros Hreach Hin Hbody.
  assert (Hseq : seq db < lastID).
  { clear Hreach. revert db Hin.
    induction reqs as [ | [k o] rest IH]; intros db Hin; simpl in Hin;
      [contradiction | ].
    pose proof (handle_seq id_eq k o db) as Hmono.
    pose proof (handle_created id_eq k o db lastID t c d1 d2) as Hnew.
    destruct (handle id_eq k o db) as [r db1].
    specialize (IH db1).
    destruct (handle_all id_eq rest db1) as [rs db2].
    simpl in Hin, Hmono, Hnew, IH. destruct Hin as [-> | Hin].
    - destruct (Hnew Hbody) as [-> _].
      destruct (next_rowid_above_seq db). lia.
    - specialize (IH Hin). lia. }
  split; [exact Hseq | ].
  intros r Hr. destruct (reachable_rowids id_eq db Hreach) as [_ Hb].
  rewrite Forall_forall in Hb. specialize (Hb r Hr). simpl in Hb. lia.
Qed.

Hypothesis Hdec : reads_decimal id_eq.

Lemma hit_decimal (k : Z) (r : note) : hit id_eq (decimal k) r = (id r =? k).
Proof.
  unfold hit. destruct (id r =? k) eqn:E.
  - apply Z.eqb_eq in E. apply Hdec. congruence.
  - apply Z.eqb_neq in E. destruct (id_eq (decimal k) (id r)) eqn:H;
      [ | reflexivity].
    apply Hdec in H. congruence.
Qed.

(** X3. Get, on the id a Create has just answered with, returns the note
    as sent: the same title, the content defaulted to the empty string,
    and [created_at] equal to [updated_at]. *)
Theorem get_after_create (now d1 d2 : Z) (t c : jsval) (db : database) :
  ~ empty_or_missing t ->
  exists lastID s db',
    post_note now d1 d2 t c db =
      (res_json (Created lastID t (JString (defaulted c)) d1 d2), db')
    /\ t = JString s
    /\ get_note id_eq (decimal lastID) db' =
       {| status := 200;
          body := Row {| id := lastID; title := Some s;
                         content := Some (defaulted c);
                         created_at := now; updated_at := now |} |}.
Proof.
  intros Ht. title_given t s Hne.
  exists (next_rowid db), s. eexists.
  split; [exact (post_note_run now d1 d2 s c db Hne) | ].
  split; [reflexivity | ].
  unfold get_note, select_note. simpl rows.
  rewrite find_snoc_last; [reflexivity | | ].
  - intros r Hr. rewrite hit_decimal. apply Z.eqb_neq.
    apply next_rowid_fresh in Hr. lia.
  - rewrite hit_decimal. apply Z.eqb_refl.
Qed.

(** X4. Delete, on the id a Create has just answered with, succeeds and
    leaves the notes that were stored before the Create, in their order;
    only the counter keeps the id. *)
Theorem delete_after_create (now d1 d2 : Z) (t c : jsval) (db : database) :
  ~ empty_or_missing t ->
  exists lastID db',
    post_note now d1 d2 t c db =
      (res_json (Created lastID t (JString (defaulted c)) d1 d2), db')
    /\ delete_note_handler id_eq (decimal lastID) db' =
       (res_json (Message "Note deleted successfully"),
        {| rows := rows db; seq := lastID |}).
Proof.
  intros Ht. title_given t s Hne.
  exists (next_rowid db). eexists.
  split; [exact (post_note_run now d1 d2 s c db Hne) | ].
  unfold delete_note_handler, delete_note. simpl rows. simpl seq.
  assert (M : forall r, In r (rows db) ->
                        id_eq (decimal (next_rowid db)) (id r) = false).
  { intros r Hr. change (hit id_eq (decimal (next_rowid db)) r = false).
    rewrite hit_decimal. apply Z.eqb_neq.
    apply next_rowid_fresh in Hr. lia. }
  rewrite !filter_app,
          (filter_hit_nil id_eq _ (rows db) M),
          (filter_miss_id id_eq _ (rows db) M).
  simpl. rewrite hit_decimal. simpl. rewrite Z.eqb_refl. simpl.
  rewrite app_nil_r. reflexivity.
Qed.

(** X5. In a table the service reaches, a successful Delete of
    [/api/notes/k] removes exactly one note, the one whose id is [k], and
    keeps the others in their order. *)
Theorem delete_removes_exactly_one (k : Z) (db : database) :
  reachable id_eq db ->
  status (fst (delete_note_handler id_eq (decimal k) db)) = 200 ->
  rows (snd (delete_note_handler id_eq (decimal k) db))
  = filter (fun r => negb (id r =? k)) (rows db)
  /\ (List.length (rows (snd (delete_note_handler id_eq (decimal k) db)))
      + 1)%nat = List.length (rows db)
  /\ exists r, In r (rows db) /\ id r = k.
Proof.
  intros Hreach. destruct (reachable_rowids id_eq db Hreach) as [Hs _].
  unfold delete_note_handler, delete_note.
  assert (F : filter (hit id_eq (decimal k)) (rows db)
              = filter (fun r => id r =? k) (rows db))
    by (apply filter_ext; intros r; apply hit_decimal).
  assert (G : filter (fun r => negb (hit id_eq (decimal k) r)) (rows db)
              = filter (fun r => negb (id r =? k)) (rows db))
    by (apply filter_ext; intros r; rewrite hit_decimal; reflexivity).
  assert (One : (List.length (filter (fun r => Z.eqb (id r) k) (rows db))
                 <= 1)%nat).
  { apply (one_hit_at_most (fun z => z =? k)); [ | exact Hs].
    intros a b Ha Hb. apply Z.eqb_eq in Ha, Hb. congruence. }
  pose proof (filter_split_length (fun r => id r =? k) (rows db)) as Len.
  rewrite F, G.
  destruct (filter (fun r => id r =? k) (rows db)) as [ | x rest] eqn:E.
  - simpl. intros H. discriminate H.
  - intros _. simpl. split; [reflexivity | ].
    assert (Hx : In x (rows db) /\ (id x =? k) = true).
    { apply (proj1 (filter_In (fun r => id r =? k) x (rows db))).
      rewrite E. left; reflexivity. }
    split.
    + simpl in One, Len. lia.
    + exists x. split; [tauto | ]. apply Z.eqb_eq. tauto.
Qed.

End RowidFacts.

Lemma groceries_reachable : reachable decimal_id_eq groceries_db.
Proof.
  exact (reachable_step decimal_id_eq (mkClock 100 100000 100000)
           (Create (JString "Groceries") (JString "milk, eggs"))
           empty_db (reachable_empty decimal_id_eq)).
Qed.

Lemma stored_ids_distinct_witness :
  NoDup (map id (rows groceries_db))
  /\ (forall r, In r (rows groceries_db) -> 1 <= id r <= seq groceries_db)
  /\ (forall r r', In r (rows groceries_db) -> In r' (rows groceries_db) ->
                   id r = id r' -> r = r').
Proof.
  exact (stored_ids_distinct decimal_id_eq groceries_db groceries_reachable).
Defined.

Lemma created_ids_never_reused_witness :
  seq groceries_db < 2
  /\ forall r, In r (rows groceries_db) -> id r < 2.
Proof.
  apply (created_ids_never_reused decimal_id_eq groceries_db
           [ (mkClock 110 110000 110000, Delete "1");
             (mkClock 120 120000 120000, Create (JString "Chores") JNull) ]
           (res_json (Created 2 (JString "Chores") (JString "")
                        120000 120000))
           2 (JString "Chores") (JString "") 120000 120000
           groceries_reachable).
  - right. left. reflexivity.
  - reflexivity.
Defined.

Lemma get_after_create_witness :
  exists lastID s db',
    post_note 100 100000 100000 (JString "Groceries") JUndefined empty_db =
      (res_json (Created lastID (JString "Groceries")
                   (JString (defaulted JUndefined)) 100000 100000), db')
    /\ JString "Groceries" = JString s
    /\ get_note decimal_id_eq (decimal lastID) db' =
       {| status := 200;
          body := Row {| id := lastID; title := Some s;
                         content := Some (defaulted JUndefined);
                         created_at := 100; updated_at := 100 |} |}.
Proof.
  apply (get_after_create decimal_id_eq decimal_id_eq_reads_decimal
           100 100000 100000 (JString "Groceries") JUndefined empty_db).
  intros [H | [H | H]]; discriminate.
Defined.

Lemma delete_after_create_witness :
  exists lastID db',
    post_note 200 200000 200000 (JString "Chores") JNull two_notes_db =
      (res_json (Created lastID (JString "Chores")
                   (JString (defaulted JNull)) 200000 200000), db')
    /\ delete_note_handler decimal_id_eq (decimal lastID) db' =
       (res_json (Message "Note deleted successfully"),
        {| rows := rows two_notes_db; seq := lastID |}).
Proof.
  apply (delete_after_create decimal_id_eq decimal_id_eq_reads_decimal
           200 200000 200000 (JString "Chores") JNull two_notes_db).
  intros [H | [H | H]]; discriminate.
Defined.

Lemma delete_removes_exactly_one_witness :
  rows (snd (delete_note_handler decimal_id_eq (decimal 1) groceries_db))
  = filter (fun r => negb (id r =? 1)) (rows groceries_db)
  /\ (List.length
        (rows (snd (delete_note_handler decimal_id_eq (decimal 1)
                      groceries_db))) + 1)%nat
     = List.length (rows groceries_db)
  /\ exists r, In r (rows groceries_db) /\ id r = 1.
Proof.
  apply (delete_removes_exactly_one decimal_id_eq decimal_id_eq_reads_decimal
           1 groceries_db groceries_reachable).
  reflexivity.
Defined.

(* ================================================================== *)
(** * How the requests compose *)

Lemma newest_heads (all l : list note) (n : note) :
  In n all ->
  (forall r, In r all -> r = n \/ updated_at r < updated_at n) ->
  Permutation all l ->
  StronglySorted newer_or_equal l ->
  exists rest, l = n :: rest.
Proof.
  intros Hn Hall Hp Hs.
  apply (Permutation_in _ Hp) in Hn.
  destruct l as [ | x rest]; [contradiction | ].
  assert (Hx : In x all)
    by (apply (Permutation_in _ (Permutation_sym Hp)); left; reflexivity).
  destruct (Hall x Hx) as [-> | Hlt]; [exists rest; reflexivity | ].
  exfalso. destruct Hn as [-> | Hn]; [lia | ].
  inversion Hs as [ | ? ? _ Hrest]; subst.
  rewrite Forall_forall in Hrest. specialize (Hrest n Hn).
  unfold newer_or_equal in Hrest. lia.
Qed.

Section Composition.

Variable id_eq : string -> Z -> bool.

Lemma filter_hit_nil_inv (p : string) (l : list note) :
  filter (hit id_eq p) l = [] ->
  forall r, In r l -> id_eq p (id r) = false.
Proof.
  intros H r Hr. destruct (id_eq p (id r)) eqn:E; [ | reflexivity].
  assert (Hf : In r (filter (hit id_eq p) l))
    by (apply filter_In; split; assumption).
  rewrite H in Hf. contradiction.
Qed.

(** What a successful Update says of the request and of the table. *)
Lemma put_note_row (now : Z) (p : string) (t c : jsval)
      (db db' : database) (r' : note) :
  put_note id_eq now p t c db = (res_json (Row r'), db') ->
  exists s r,
    t = JString s /\ s <> ""
    /\ find (hit id_eq p) (rows db) = Some r
    /\ r' = set_note now (Some s) (Some (defaulted c)) r
    /\ db' = {| rows := map (fun x => if hit id_eq p x
                                      then set_note now (Some s)
                                             (Some (defaulted c)) x
                                      else x) (rows db);
                seq := seq db |}.
Proof.
  intros H. destruct (truthy t) eqn:T.
  - destruct (truthy_true_string t T) as [s [-> Hs]].
    rewrite (put_note_run id_eq now p s c db Hs) in H. cbv zeta in H.
    destruct (List.length (filter (hit id_eq p) (rows db)) =? 0)%nat;
      [discriminate | ].
    unfold select_note in H. simpl rows in H.
    rewrite find_map_hit in H by reflexivity.
    destruct (find (hit id_eq p) (rows db)) as [r | ] eqn:F;
      simpl in H; [ | discriminate].
    injection H as <- <-. exists s, r. repeat split; assumption.
  - unfold put_note in H. rewrite T in H. discriminate.
Qed.

(** X6. A request that is refused leaves the table exactly as it was: an
    answer with status 400 or 404 is the validation error "Title is
    required" or the error "Note not found", and the table after it is
    the table before it.  (Nothing of the kind is said of a 500: when the
    read-back of an Update fails, the UPDATE has taken effect.) *)
Theorem refusals_leave_the_table (k : clock) (o : operation) (db : database) :
  status (fst (handle id_eq k o db)) = 400
  \/ status (fst (handle id_eq k o db)) = 404 ->
  snd (handle id_eq k o db) = db
  /\ (fst (handle id_eq k o db)
      = {| status := 400; body := Error "Title is required" None |}
      \/ fst (handle id_eq k o db)
         = {| status := 404; body := Error "Note not found" None |}).
Proof.
  destruct o as [ | p | t c | p t c | p]; simpl.
  - intros [H | H]; discriminate H.
  - unfold get_note. destruct (select_note id_eq p db); simpl.
    + intros [H | H]; discriminate H.
    + intros _. split; [reflexivity | right; reflexivity].
  - destruct (truthy t) eqn:T.
    + destruct (truthy_true_string t T) as [s [-> Hs]].
      rewrite (post_note_run (now k) (date1 k) (date2 k) s c db Hs).
      simpl. intros [H | H]; discriminate H.
    + unfold post_note. rewrite T. simpl. intros _.
      split; [reflexivity | left; reflexivity].
  - destruct (truthy t) eqn:T.
    + destruct (truthy_true_string t T) as [s [-> Hs]].
      rewrite (put_note_run id_eq (now k) p s c db Hs). cbv zeta.
      destruct (List.length (filter (hit id_eq p) (rows db)) =? 0)%nat eqn:L.
      * intros _. simpl. apply length_eqb_zero in L.
        rewrite (map_miss_id id_eq p _ (rows db)
                   (filter_hit_nil_inv p (rows db) L)).
        split; [apply db_eta | right; reflexivity].
      * destruct (select_note id_eq p _); simpl; intros [H | H];
          discriminate H.
    + unfold put_note. rewrite T. simpl. intros _.
      split; [reflexivity | left; reflexivity].
  - unfold delete_note_handler, delete_note.
    destruct (List.length (filter (hit id_eq p) (rows db)) =? 0)%nat eqn:L;
      simpl.
    + intros _. apply length_eqb_zero in L.
      rewrite (filter_miss_id id_eq p (rows db)
                 (filter_hit_nil_inv p (rows db) L)).
      split; [apply db_eta | right; reflexivity].
    + intros [H | H]; discriminate H.
Qed.

Lemma find_rewritten_elsewhere (p q : string) (f : note -> note)
      (l : list note) :
  (forall k, id_eq p k = true -> id_eq q k = false) ->
  (forall r, id (f r) = id r) ->
  find (hit id_eq q) (map (fun r => if hit id_eq p r then f r else r) l)
  = find (hit id_eq q) l.
Proof.
  intros Hpq Hf. induction l as [ | x l IH]; simpl; [reflexivity | ].
  destruct (hit id_eq p x) eqn:E.
  - unfold hit in E |- *. rewrite Hf, (Hpq _ E). exact IH.
  - rewrite IH. reflexivity.
Qed.

Lemma find_deleted_elsewhere (p q : string) (l : list note) :
  (forall k, id_eq p k = true -> id_eq q k = false) ->
  find (hit id_eq q) (filter (fun r => negb (hit id_eq p r)) l)
  = find (hit id_eq q) l.
Proof.
  intros Hpq. induction l as [ | x l IH]; simpl; [reflexivity | ].
  destruct (hit id_eq p x) eqn:E; simpl.
  - unfold hit in E |- *. rewrite (Hpq _ E). exact IH.
  - rewrite IH. reflexivity.
Qed.

(** X7. Update and Delete on one id leave every other id as it was: Get
    on an id that matches none of the rows the first id matches answers
    after them as it did before. *)
Theorem other_notes_untouched
  (now : Z) (p q : string) (t c : jsval) (db : database) :
  (forall k, id_eq p k = true -> id_eq q k = false) ->
  get_note id_eq q (snd (put_note id_eq now p t c db)) = get_note id_eq q db
  /\ get_note id_eq q (snd (delete_note_handler id_eq p db))
     = get_note id_eq q db.
Proof.
  intros Hpq. unfold get_note, select_note. split.
  - destruct (truthy t) eqn:T.
    + destruct (truthy_true_string t T) as [s [-> Hs]].
      rewrite (put_note_run id_eq now p s c db Hs). cbv zeta.
      assert (F : find (hit id_eq q)
                    (map (fun r => if hit id_eq p r
                                   then set_note now (Some s)
                                          (Some (defaulted c)) r
                                   else r) (rows db))
                  = find (hit id_eq q) (rows db))
        by (apply find_rewritten_elsewhere; [exact Hpq | reflexivity]).
      destruct (List.length (filter (hit id_eq p) (rows db)) =? 0)%nat;
        [simpl; rewrite F; reflexivity | ].
      destruct (select_note id_eq p _); simpl; rewrite F; reflexivity.
    + unfold put_note. rewrite T. reflexivity.
  - unfold delete_note_handler, delete_note.
    destruct (List.length (filter (hit id_eq p) (rows db)) =? 0)%nat;
      simpl; rewrite (find_deleted_elsewhere p q _ Hpq); reflexivity.
Qed.

Lemma filter_hit_rewritten (p : string) (f : note -> note) (l : list note) :
  (forall r, id (f r) = id r) ->
  List.length (filter (hit id_eq p)
                 (map (fun r => if hit id_eq p r then f r else r) l))
  = List.length (filter (hit id_eq p) l).
Proof.
  intros Hf. induction l as [ | x l IH]; simpl; [reflexivity | ].
  destruct (hit id_eq p x) eqn:E.
  - unfold hit at 1. rewrite Hf. fold (hit id_eq p x). rewrite E.
    simpl. rewrite IH. reflexivity.
  - rewrite E. exact IH.
Qed.

(** X8. An Update sent twice while the store's clock shows the same second
    does the second time what it did the first: the same table and the
    same answer. *)
Theorem update_twice_same_second
  (now : Z) (p : string) (t c : jsval) (db : database) :
  put_note id_eq now p t c (snd (put_note id_eq now p t c db))
  = (fst (put_note id_eq now p t c db), snd (put_note id_eq now p t c db)).
Proof.
  destruct (truthy t) eqn:T.
  - destruct (truthy_true_string t T) as [s [-> Hs]].
    set (g := fun r => if hit id_eq p r
                       then set_note now (Some s) (Some (defaulted c)) r
                       else r).
    set (db1 := {| rows := map g (rows db); seq := seq db |}).
    assert (R : put_note id_eq now p (JString s) c db
                = if (List.length (filter (hit id_eq p) (rows db)) =? 0)%nat
                  then (res_error 404 "Note not found", db1)
                  else match select_note id_eq p db1 with
                       | Some r => (res_json (Row r), db1)
                       | None => (res_json Undefined, db1)
                       end)
      by (apply put_note_run; exact Hs).
    assert (E1 : snd (put_note id_eq now p (JString s) c db) = db1).
    { rewrite R.
      destruct (List.length (filter (hit id_eq p) (rows db)) =? 0)%nat;
        [reflexivity | ].
      destruct (select_note id_eq p db1); reflexivity. }
    assert (I : map g (map g (rows db)) = map g (rows db)).
    { rewrite map_map. apply map_ext. intros r. unfold g.
      destruct (hit id_eq p r) eqn:E; [ | rewrite E; reflexivity].
      unfold hit at 1. simpl. fold (hit id_eq p r). rewrite E.
      reflexivity. }
    rewrite E1, R, (put_note_run id_eq now p s c db1 Hs). cbv zeta.
    fold g. simpl rows. simpl seq. rewrite I. fold db1.
    unfold g at 1. rewrite filter_hit_rewritten by reflexivity.
    destruct (List.length (filter (hit id_eq p) (rows db)) =? 0)%nat;
      [reflexivity | ].
    destruct (select_note id_eq p db1); reflexivity.
  - unfold put_note. rewrite !T. simpl. rewrite ?T. reflexivity.
Qed.

End Composition.

Lemma other_notes_untouched_witness :
  get_note decimal_id_eq "1"
    (snd (put_note decimal_id_eq 180 "2" (JString "Errands, done") JNull
            two_notes_db))
  = get_note decimal_id_eq "1" two_notes_db
  /\ get_note decimal_id_eq "1"
       (snd (delete_note_handler decimal_id_eq "2" two_notes_db))
     = get_note decimal_id_eq "1" two_notes_db.
Proof.
  apply (other_notes_untouched decimal_id_eq 180 "2" "1"
           (JString "Errands, done") JNull two_notes_db).
  intros k H. unfold decimal_id_eq in *.
  apply String.eqb_eq in H. rewrite <- H. reflexivity.
Defined.

Lemma refusals_leave_the_table_witness :
  snd (handle decimal_id_eq (mkClock 180 180000 180000)
         (Update "7" (JString "Chores") JNull) two_notes_db)
  = two_notes_db
  /\ (fst (handle decimal_id_eq (mkClock 180 180000 180000)
             (Update "7" (JString "Chores") JNull) two_notes_db)
      = {| status := 400; body := Error "Title is required" None |}
      \/ fst (handle decimal_id_eq (mkClock 180 180000 180000)
                (Update "7" (JString "Chores") JNull) two_notes_db)
         = {| status := 404; body := Error "Note not found" None |}).
Proof.
  apply (refusals_leave_the_table decimal_id_eq (mkClock 180 180000 180000)
           (Update "7" (JString "Chores") JNull) two_notes_db).
  right. reflexivity.
Defined.

(* ================================================================== *)
(** * Timestamps *)

Section Timestamps.

Variable id_eq : string -> Z -> bool.

Lemma handle_stamped (t : Z) (k : clock) (o : operation) (db : database) :
  stamped_upto t db -> t <= now k ->
  stamped_upto (now k) (snd (handle id_eq k o db)).
Proof.
  intros Hdb Ht.
  assert (Hup : stamped_upto (now k) db).
  { unfold stamped_upto in *. rewrite Forall_forall in Hdb |- *.
    intros r Hr. specialize (Hdb r Hr). lia. }
  destruct o as [ | p | t' c | p t' c | p]; simpl; try exact Hup.
  - destruct (truthy t') eqn:T.
    + destruct (truthy_true_string t' T) as [s [-> Hs]].
      rewrite (post_note_run (now k) (date1 k) (date2 k) s c db Hs).
      unfold stamped_upto. simpl. apply Forall_app. split; [exact Hup | ].
      constructor; [simpl; lia | constructor].
    + unfold post_note. rewrite T. exact Hup.
  - destruct (truthy t') eqn:T.
    + destruct (truthy_true_string t' T) as [s [-> Hs]].
      rewrite (put_note_run id_eq (now k) p s c db Hs). cbv zeta.
      assert (H : Forall (fun r => created_at r <= updated_at r
                                   /\ updated_at r <= now k)
                    (map (fun r => if hit id_eq p r
                                   then set_note (now k) (Some s)
                                          (Some (defaulted c)) r
                                   else r) (rows db))).
      { unfold stamped_upto in Hup. rewrite Forall_forall in Hup |- *.
        intros r Hr. apply in_map_iff in Hr. destruct Hr as [x [<- Hx]].
        specialize (Hup x Hx).
        destruct (hit id_eq p x); [simpl; lia | exact Hup]. }
      destruct (List.length (filter (hit id_eq p) (rows db)) =? 0)%nat;
        [exact H | ].
      destruct (select_note id_eq p _); exact H.
    + unfold put_note. rewrite T. exact Hup.
  - unfold delete_note_handler, delete_note.
    assert (H : Forall (fun r => created_at r <= updated_at r
                                 /\ updated_at r <= now k)
                  (filter (fun r => negb (hit id_eq p r)) (rows db))).
    { unfold stamped_upto in Hup. rewrite Forall_forall in Hup |- *.
      intros r Hr. apply filter_In in Hr. apply Hup. tauto. }
    destruct (List.length (filter (hit id_eq p) (rows db)) =? 0)%nat;
      exact H.
Qed.

(** X9. As long as the store's clock never goes back, every stored note
    has [updated_at >= created_at], whatever requests are served: started
    from a table where this holds with no timestamp later than the clock,
    a session leaves a table where it holds. *)
Theorem touched_after_created
  (t : Z) (reqs : list (clock * operation)) (db : database) :
  stamped_upto t db ->
  clock_never_back t reqs ->
  forall r, In r (rows (snd (handle_all id_eq reqs db))) ->
            created_at r <= updated_at r.
Proof.
  intros Hdb Hclock.
  assert (H : exists t', stamped_upto t' (snd (handle_all id_eq reqs db))).
  { revert t db Hdb Hclock.
    induction reqs as [ | [k o] rest IH]; intros t db Hdb Hclock; simpl.
    - exists t. exact Hdb.
    - destruct Hclock as [Ht Hrest].
      pose proof (handle_stamped t k o db Hdb Ht) as Hstep.
      destruct (handle id_eq k o db) as [r db1]. simpl in Hstep.
      specialize (IH (now k) db1 Hstep Hrest).
      destruct (handle_all id_eq rest db1) as [rs db2]. exact IH. }
  destruct H as [t' H]. intros r Hr.
  unfold stamped_upto in H. rewrite Forall_forall in H.
  apply (H r Hr).
Qed.

Hypothesis Hdec : reads_decimal id_eq.

(** X10. An Update moves the note to the head of the list: in a table the
    service reaches, after a successful Update of [/api/notes/k] served at
    a clock reading later than the [updated_at] of every other note, the
    updated note is the first of the List result (of every result the
    ORDER BY clause allows). *)
Theorem updated_note_listed_first
  (now : Z) (k : Z) (t c : jsval) (db db' : database) (r' : note) :
  reachable id_eq db ->
  put_note id_eq now (decimal k) t c db = (res_json (Row r'), db') ->
  (forall r, In r (rows db) -> id r <> k -> updated_at r < now) ->
  id r' = k
  /\ (forall l, ordered_listing db' l -> exists rest, l = r' :: rest)
  /\ exists rest, get_notes db' = res_json (Rows (r' :: rest)).
Proof.
  intros Hreach Hput Hold.
  destruct (put_note_row id_eq now (decimal k) t c db db' r' Hput)
    as [s [r0 [-> [Hs [F [-> ->]]]]]].
  destruct (find_some _ _ F) as [Hin0 Hhit0].
  rewrite hit_decimal in Hhit0 by exact Hdec. apply Z.eqb_eq in Hhit0.
  destruct (reachable_rowids id_eq db Hreach) as [Hsorted _].
  pose proof (sorted_ids_NoDup _ Hsorted) as Hnd.
  assert (N : forall l,
             ordered_listing
               {| rows := map (fun x => if hit id_eq (decimal k) x
                                        then set_note now (Some s)
                                               (Some (defaulted c)) x
                                        else x) (rows db);
                  seq := seq db |} l ->
             exists rest,
               l = set_note now (Some s) (Some (defaulted c)) r0 :: rest).
  { intros l [Hp Hl]. simpl rows in Hp.
    apply (newest_heads _ l _) with (3 := Hp) (4 := Hl).
    - apply in_map_iff. exists r0. split; [ | exact Hin0].
      rewrite hit_decimal by exact Hdec.
      rewrite (proj2 (Z.eqb_eq _ _) Hhit0). reflexivity.
    - intros r Hr. apply in_map_iff in Hr. destruct Hr as [x [<- Hx]].
      rewrite hit_decimal by exact Hdec.
      destruct (id x =? k) eqn:E.
      + left. apply Z.eqb_eq in E.
        rewrite (same_id_same_row (rows db) x r0 Hnd Hx Hin0);
          [reflexivity | congruence].
      + right. simpl. apply Hold; [exact Hx | ]. apply Z.eqb_neq. exact E. }
  split; [exact Hhit0 | ]. split; [exact N | ].
  destruct (N _ (conj (sort_desc_perm _) (sort_desc_sorted _)))
    as [rest Hrest].
  exists rest. unfold get_notes, select_all. rewrite Hrest. reflexivity.
Qed.

End Timestamps.

Lemma touched_after_created_witness :
  Forall (fun r => created_at r <= updated_at r)
    (rows (snd (handle_all decimal_id_eq
                  [ (mkClock 100 100000 100000,
                     Create (JString "Groceries") (JString "milk, eggs"));
                    (mkClock 160 160000 160000,
                     Update "1" (JString "Groceries v2") (JString "milk")) ]
                  empty_db))).
Proof.
  apply Forall_forall.
  apply (touched_after_created decimal_id_eq 0
           [ (mkClock 100 100000 100000,
              Create (JString "Groceries") (JString "milk, eggs"));
             (mkClock 160 160000 160000,
              Update "1" (JString "Groceries v2") (JString "milk")) ]
           empty_db).
  - constructor.
  - simpl. lia.
Defined.

(** With a clock that goes back the order of the two timestamps is lost. *)
Example touched_before_created :
  snd (handle_all decimal_id_eq
         [ (mkClock 100 100000 100000,
            Create (JString "Groceries") (JString "milk, eggs"));
           (mkClock 90 160000 160000,
            Update "1" (JString "Groceries v2") (JString "milk")) ]
         empty_db)
  = {| rows := [ mkNote 1 (Some "Groceries v2") (Some "milk") 100 90 ];
       seq := 1 |}.
Proof. reflexivity. Qed.

Lemma two_notes_reachable : reachable decimal_id_eq two_notes_db.
Proof.
  exact (reachable_step decimal_id_eq (mkClock 170 170000 170000)
           (Update "2" (JString "Errands") JNull) _
           (reachable_step decimal_id_eq (mkClock 130 130000 130000)
              (Create (JString "Errands") JUndefined) _
              groceries_reachable)).
Qed.

Lemma updated_note_listed_first_witness :
  id (mkNote 1 (Some "Groceries v2") (Some "milk") 100 180) = 1
  /\ (forall l,
        ordered_listing
          {| rows := [ mkNote 1 (Some "Groceries v2") (Some "milk") 100 180;
                       mkNote 2 (Some "Errands") (Some "") 130 170 ];
             seq := 2 |} l ->
        exists rest,
          l = mkNote 1 (Some "Groceries v2") (Some "milk") 100 180 :: rest)
  /\ exists rest,
       get_notes
         {| rows := [ mkNote 1 (Some "Groceries v2") (Some "milk") 100 180;
                      mkNote 2 (Some "Errands") (Some "") 130 170 ];
            seq := 2 |}
       = res_json (Rows (mkNote 1 (Some "Groceries v2") (Some "milk") 100 180
                           :: rest)).
Proof.
  apply (updated_note_listed_first decimal_id_eq decimal_id_eq_reads_decimal
           180 1 (JString "Groceries v2") (JString "milk") two_notes_db
           {| rows := [ mkNote 1 (Some "Groceries v2") (Some "milk") 100 180;
                        mkNote 2 (Some "Errands") (Some "") 130 170 ];
              seq := 2 |}
           (mkNote 1 (Some "Groceries v2") (Some "milk") 100 180)
           two_notes_reachable).
  - reflexivity.
  - intros r [<- | [<- | []]] H; simpl in *; lia.
Defined.

(* ================================================================== *)
(** * The call to the upstream API *)

Lemma trim_start_head (s : string) (c : ascii) (rest : string) :
  trim_start s = String c rest -> is_white_space c = false.
Proof.
  induction s as [ | a s IH]; simpl; [discriminate | ].
  destruct (is_white_space a) eqn:E; [exact IH | ].
  intros H. injection H as <- _. exact E.
Qed.

Lemma trim_end_head (s : string) (c : ascii) (rest : string) :
  trim_end s = String c rest -> exists rest', s = String c rest'.
Proof.
  destruct s as [ | a s]; simpl; [discriminate | ].
  destruct (trim_end s); [destruct (is_white_space a) | ];
    intros H; try discriminate; injection H as <- _; eauto.
Qed.

Lemma trim_end_last (s init : string) (c : ascii) :
  trim_end s = init ++ String c "" -> is_white_space c = false.
Proof.
  revert init. induction s as [ | a s IH]; intros init; simpl.
  - destruct init; discriminate.
  - destruct (trim_end s) as [ | b t] eqn:T.
    + destruct (is_white_space a) eqn:E.
      * destruct init; discriminate.
      * destruct init as [ | i init]; simpl; intros H.
        -- injection H as <-. exact E.
        -- injection H as _ H. destruct init; discriminate.
    + destruct init as [ | i init]; simpl; intros H.
      * discriminate.
      * injection H as _ H. apply (IH init). exact H.
Qed.

Lemma trim_no_outer_white_space (s : string) : no_outer_white_space (trim s).
Proof.
  unfold trim. split.
  - intros c rest H. destruct (trim_end_head _ _ _ H) as [rest' H'].
    apply (trim_start_head s c rest'). exact H'.
  - intros init c H. apply (trim_end_last (trim_start s) init c). exact H.
Qed.

Lemma on_error_body (env : environment) (m : string) :
  exists e d, body (on_error env m) = Error e d.
Proof.
  unfold on_error.
  destruct (includes "401" m || includes "Unauthorized" m);
    [simpl; eauto | ].
  destruct (includes "429" m || includes "rate limit" m); simpl; eauto.
Qed.

(** X11. A Summarize request with a text that is not empty once trimmed,
    served with a key, sends exactly one request upstream: a POST to the
    configured URL (the default one when the variable is unset or empty),
    with the key as bearer token and the text as received, untrimmed,
    after the fixed prompt; the answer is made from the outcome of that
    one request. *)
Theorem summarize_sends_one_request
  (env : environment) (s key : string)
  (upstream : fetch_request -> fetch_result) :
  ~ whitespace_only s ->
  env_XAI_API_KEY env = Some key ->
  key <> "" ->
  exists rq,
    run upstream (summarize env (JString s))
    = (after_fetch env (upstream rq), [rq])
    /\ method rq = "POST"
    /\ url rq = JString (match env_XAI_API_URL env with
                         | Some (String a u) => String a u
                         | Some EmptyString | None =>
                             "https://api.x.ai/v1/chat/completions"
                         end)
    /\ authorization rq = "Bearer " ++ key
    /\ user_content rq =
       "Please summarize the following text:" ++ newline ++ newline ++ s
    /\ stream rq = false.
Proof.
  intros Hs Hk Hne.
  assert (M : text_missing (JString s) = false).
  { destruct (text_missing (JString s)) eqn:M; [ | reflexivity].
    apply text_missing_iff in M.
    destruct M as [M | [M | [s' [M W]]]]; try discriminate.
    injection M as <-. contradiction. }
  assert (K : truthy (XAI_API_KEY env) = true).
  { unfold XAI_API_KEY. rewrite Hk. destruct key; [congruence | reflexivity]. }
  exists (summarize_request env (JString s)).
  unfold summarize. rewrite M, K. simpl.
  repeat split.
  - unfold XAI_API_URL.
    destruct (env_XAI_API_URL env) as [[ | a u] | ]; reflexivity.
  - unfold XAI_API_KEY. rewrite Hk. reflexivity.
Qed.

Lemma summarize_sends_one_request_witness :
  exists rq,
    run (fun _ => Rejected "fetch failed")
        (summarize with_key (JString " A long note. "))
    = (after_fetch with_key ((fun _ => Rejected "fetch failed") rq), [rq])
    /\ method rq = "POST"
    /\ url rq = JString "https://api.x.ai/v1/chat/completions"
    /\ authorization rq = "Bearer " ++ "xai-key"
    /\ user_content rq =
       "Please summarize the following text:" ++ newline ++ newline
       ++ " A long note. "
    /\ stream rq = false.
Proof.
  apply (summarize_sends_one_request with_key " A long note. " "xai-key"
           (fun _ => Rejected "fetch failed")).
  - intros H. inversion H as [ | ? ? _ H']. inversion H' as [ | ? ? C _].
    discriminate C.
  - reflexivity.
  - discriminate.
Defined.

(** X12. Summarize answers with a summary only for a 2xx upstream response
    whose first completion could be read; the answer is then 200 and the
    summary is that completion trimmed: it has no white space at either
    end. *)
Theorem summary_is_trimmed
  (env : environment) (o : fetch_result) (x : string) :
  body (after_fetch env o) = Summary x ->
  status (after_fetch env o) = 200
  /\ (exists st e content,
        o = Resolved st e (Content content)
        /\ 200 <= st <= 299
        /\ x = trim content)
  /\ no_outer_white_space x.
Proof.
  intros H.
  assert (No : forall m, body (on_error env m) <> Summary x).
  { intros m E. destruct (on_error_body env m) as [e [d B]]. congruence. }
  destruct o as [m | st e ch]; simpl in H |- *.
  - destruct (No m H).
  - destruct (ok st) eqn:K; simpl in H |- *.
    + destruct ch as [content | m]; [ | destruct (No m H)].
      simpl in H. injection H as <-. split; [reflexivity | ]. split.
      * exists st, e, content. split; [reflexivity | ].
        unfold ok in K. apply andb_true_iff in K. destruct K as [A B].
        apply Z.leb_le in A, B. split; [lia | reflexivity].
      * apply trim_no_outer_white_space.
    + destruct e as [em tm | m]; [destruct (No _ H) | destruct (No m H)].
Qed.

Lemma summary_is_trimmed_witness :
  status (after_fetch with_key
            (Resolved 200 (ErrorData JUndefined JUndefined)
               (Content " A summary. "))) = 200
  /\ (exists st e content,
        Resolved 200 (ErrorData JUndefined JUndefined)
          (Content " A summary. ")
        = Resolved st e (Content content)
        /\ 200 <= st <= 299
        /\ "A summary." = trim content)
  /\ no_outer_white_space "A summary.".
Proof.
  apply (summary_is_trimmed with_key
           (Resolved 200 (ErrorData JUndefined JUndefined)
              (Content " A summary. "))
           "A summary.").
  reflexivity.
Defined.

(** The status the [catch] block answers with, from the text alone. *)
Lemma on_error_status (env : environment) (m : string) :
  status (on_error env m)
  = if includes "401" m || includes "Unauthorized" m then 401
    else if includes "429" m || includes "rate limit" m then 429
    else 500.
Proof.
  unfold on_error.
  destruct (includes "401" m || includes "Unauthorized" m); [reflexivity | ].
  destruct (includes "429" m || includes "rate limit" m); reflexivity.
Qed.

(** X13. An upstream response that is not a success and carries no
    message in its body is classified by its status, which the fallback
    text spells out: 401 is answered 401, 429 is answered 429, and every
    other status from 100 to 599 is answered 500. *)
Theorem bare_status_classified
  (env : environment) (st : Z) (em tm : jsval) (ch : completion) :
  100 <= st <= 599 ->
  ok st = false ->
  truthy em = false ->
  truthy tm = false ->
  status (after_fetch env (Resolved st (ErrorData em tm) ch))
  = if st =? 401 then 401 else if st =? 429 then 429 else 500.
Proof.
  intros Hst Hok Hem Htm. simpl. rewrite Hok. simpl.
  unfold errorMessage, js_or. rewrite Hem, Htm. simpl.
  rewrite on_error_status.
  assert (All : forallb
                  (fun n =>
                     let s := 100 + Z.of_nat n in
                     let m := "API returned status " ++ decimal s in
                     (if includes "401" m || includes "Unauthorized" m
                      then 401
                      else if includes "429" m || includes "rate limit" m
                           then 429 else 500)
                     =? (if s =? 401 then 401
                         else if s =? 429 then 429 else 500))
                  (List.seq 0 500) = true)
    by (vm_compute; reflexivity).
  rewrite forallb_forall in All.
  specialize (All (Z.to_nat (st - 100))).
  cbv zeta in All.
  replace (100 + Z.of_nat (Z.to_nat (st - 100))) with st in All by lia.
  apply Z.eqb_eq. apply All. apply in_seq. lia.
Qed.

Lemma bare_status_classified_witness :
  status (after_fetch with_key
            (Resolved 429 (ErrorData JUndefined (JString "")) (Content "")))
  = 429.
Proof.
  apply (bare_status_classified with_key 429 JUndefined (JString "")
           (Content "")); try reflexivity.
  lia.
Defined.

(* ================================================================== *)
(** * The page script *)

Lemma trim_end_idem (s : string) : trim_end (trim_end s) = trim_end s.
Proof.
  induction s as [ | a s IH]; simpl; [reflexivity | ].
  destruct (trim_end s) as [ | b u] eqn:T.
  - destruct (is_white_space a) eqn:E; simpl; [reflexivity | ].
    rewrite E. reflexivity.
  - change (trim_end (String a (String b u)))
      with (match trim_end (String b u) with
            | "" => if is_white_space a then "" else String a ""
            | String c v => String a (String c v)
            end).
    rewrite IH. reflexivity.
Qed.

Lemma trim_start_fixed (s : string) :
  (forall c rest, s = String c rest -> is_white_space c = false) ->
  trim_start s = s.
Proof.
  destruct s as [ | a s]; simpl; [reflexivity | ].
  intros H. rewrite (H a s eq_refl). reflexivity.
Qed.

Lemma trim_idem (s : string) : trim (trim s) = trim s.
Proof.
  unfold trim at 1.
  rewrite (trim_start_fixed (trim s)
             (proj1 (trim_no_outer_white_space s))).
  unfold trim. apply trim_end_idem.
Qed.

Lemma truthy_trim (s : string) :
  truthy (JString (trim s)) = false <-> whitespace_only s.
Proof.
  simpl. rewrite negb_false_iff, length_zero_iff. apply trim_empty_iff.
Qed.

Lemma trimmed_text_not_missing (s : string) :
  ~ whitespace_only s -> text_missing (JString (trim s)) = false.
Proof.
  intros H. unfold text_missing. rewrite trim_idem.
  destruct (truthy (JString (trim s))) eqn:T.
  - simpl in T |- *. apply negb_true_iff in T. exact T.
  - apply truthy_trim in T. contradiction.
Qed.

Section Script.

Variable default_title default_content : string.
Variable json_error : string.

(** X14. The form never sends a blank title.  With a title of white space
    only the submit shows "Please enter a title" and sends nothing;
    otherwise it sends one request, a Create or (when a note is being
    edited) an Update of that note, whose title and content are the fields
    trimmed; the title has no white space at either end, and the server
    does not answer such a request 400. *)
Theorem submit_sends_trimmed_title (pg : page) :
  (whitespace_only (noteTitle_value pg) ->
   submit default_title default_content pg
   = Finish (alert "Please enter a title" pg))
  /\
  (~ whitespace_only (noteTitle_value pg) ->
   exists o k,
     submit default_title default_content pg = CallNotes o k
     /\ (o = Create (JString (trim (noteTitle_value pg)))
                    (JString (trim (noteContent_value pg)))
         \/ exists n,
              editingNoteId pg = Some n /\ n <> 0
              /\ o = Update (decimal n)
                            (JString (trim (noteTitle_value pg)))
                            (JString (trim (noteContent_value pg))))
     /\ trim (noteTitle_value pg) <> ""
     /\ no_outer_white_space (trim (noteTitle_value pg))
     /\ forall id_eq clk db, status (fst (handle id_eq clk o db)) <> 400).
Proof.
  unfold submit. split.
  - intros H. apply truthy_trim in H. rewrite H. reflexivity.
  - intros H.
    assert (Hne : trim (noteTitle_value pg) <> "")
      by (intros E; apply H; apply trim_empty_iff; exact E).
    destruct (truthy (JString (trim (noteTitle_value pg)))) eqn:T;
      [ | apply truthy_trim in T; contradiction].
    simpl negb. cbv iota.
    assert (Created_ok : forall id_eq clk db,
               status (fst (handle id_eq clk
                              (Create (JString (trim (noteTitle_value pg)))
                                      (JString (trim (noteContent_value pg))))
                              db)) <> 400).
    { intros id_eq clk db. simpl.
      rewrite (post_note_run _ _ _ _ _ db Hne). simpl. discriminate. }
    destruct (editingNoteId pg) as [n | ] eqn:En.
    + destruct (editing (Some n)) eqn:Ed.
      * eexists. eexists. split; [reflexivity | ].
        split; [ | split; [exact Hne | split;
                   [apply trim_no_outer_white_space | ]]].
        -- right. exists n. repeat split.
           simpl in Ed. apply negb_true_iff, Z.eqb_neq in Ed. exact Ed.
        -- intros id_eq clk db. simpl.
           rewrite (put_note_run id_eq _ _ _ _ db Hne). cbv zeta.
           destruct (List.length (filter _ (rows db)) =? 0)%nat;
             [simpl; discriminate | ].
           destruct (select_note id_eq _ _); simpl; discriminate.
      * eexists. eexists. split; [reflexivity | ].
        split; [left; reflexivity | ].
        split; [exact Hne | ].
        split; [apply trim_no_outer_white_space | exact Created_ok].
    + eexists. eexists. split; [reflexivity | ].
      split; [left; reflexivity | ].
      split; [exact Hne | ].
      split; [apply trim_no_outer_white_space | exact Created_ok].
Qed.

(** X15. The summarize button is never left disabled.  With a content of
    white space only the script shows an alert and sends nothing;
    otherwise it sends the content trimmed, a text the server does not
    refuse as missing, and whatever the reply the button ends enabled with
    its label restored, the title and the mode untouched: either the
    content is replaced and no alert is shown, or one alert is shown and
    the content is as typed. *)
Theorem summarize_button_restored (pg : page) :
  (whitespace_only (noteContent_value pg) ->
   summarizeText json_error pg
   = Finish (alert "Please enter some text to summarize first!" pg))
  /\
  (~ whitespace_only (noteContent_value pg) ->
   exists k,
     summarizeText json_error pg
     = CallSummarize (JString (trim (noteContent_value pg))) k
     /\ text_missing (JString (trim (noteContent_value pg))) = false
     /\ forall rp,
        exists pg',
          k rp = Finish pg'
          /\ summarizeBtn_disabled pg' = false
          /\ summarizeBtn_textContent pg' = summarizeBtn_textContent pg
          /\ noteTitle_value pg' = noteTitle_value pg
          /\ editingNoteId pg' = editingNoteId pg
          /\ ((alerts pg' = alerts pg)
              \/ (exists m, alerts pg' = m :: alerts pg
                            /\ noteContent_value pg' = noteContent_value pg))).
Proof.
  unfold summarizeText. cbv zeta. split.
  - intros H. apply truthy_trim in H. rewrite H. reflexivity.
  - intros H.
    destruct (truthy (JString (trim (noteContent_value pg)))) eqn:T;
      [ | apply truthy_trim in T; contradiction].
    simpl negb. cbv iota.
    eexists. split; [reflexivity | ].
    split; [apply trimmed_text_not_missing; exact H | ].
    intros rp. eexists. split; [reflexivity | ].
    destruct rp as [m | r]; simpl.
    + repeat (split; [reflexivity | ]).
      right. eexists. split; reflexivity.
    + destruct (negb (ok (status r))).
      * destruct (body_error (body r)); simpl;
          repeat (split; [reflexivity | ]);
          right; eexists; split; reflexivity.
      * destruct (body_summary (body r)); simpl;
          repeat (split; [reflexivity | ]).
        -- left. reflexivity.
        -- right. eexists. split; reflexivity.
Qed.

Lemma failed_reply_not_ok (r : response) :
  failed_reply (Answered r) -> ok (status r) = false.
Proof.
  simpl. unfold ok. intros H.
  destruct ((200 <=? status r) && (status r <=? 299)) eqn:E;
    [ | reflexivity].
  apply andb_true_iff in E. destruct E as [A B].
  apply Z.leb_le in A, B. contradiction H. split; assumption.
Qed.

Lemma answered_ok (r : response) :
  ~ failed_reply (Answered r) -> ok (status r) = true.
Proof.
  simpl. unfold ok. intros H.
  destruct ((200 <=? status r) && (status r <=? 299)) eqn:E;
    [reflexivity | ].
  contradiction H. intros [A B].
  apply Z.leb_le in A, B. rewrite A, B in E. discriminate E.
Qed.

Lemma loadNotes_always (P : page -> Prop) (q : page) :
  (forall v, P (show v q)) -> always_ends P (loadNotes q).
Proof.
  intros H. simpl. intros [m | r]; [apply H | ].
  destruct (negb (ok (status r))); [apply H | ].
  destruct (body r) as [l | | | | | | ]; try apply H.
  unfold displayNotes. destruct (List.length l =? 0)%nat; apply H.
Qed.

(** Update through the page of an id that matches no stored note. *)
Lemma put_note_missing (id_eq : string -> Z -> bool) (now : Z) (p s : string)
      (c : jsval) (db : database) :
  s <> "" ->
  (forall r, In r (rows db) -> id_eq p (id r) = false) ->
  put_note id_eq now p (JString s) c db
  = ({| status := 404; body := Error "Note not found" None |}, db).
Proof.
  intros Hs Hmiss. rewrite (put_note_run id_eq now p s c db Hs). cbv zeta.
  rewrite (filter_hit_nil id_eq p (rows db) Hmiss),
          (map_miss_id id_eq p _ (rows db) Hmiss), db_eta.
  reflexivity.
Qed.

(** X16. A request that fails never loses what the user typed.  On a
    reply that is a failure (the fetch threw, or the status is not a 2xx)
    [updateNote], [createNote] and [editNote] end at once with the page as
    it was, fields and mode included, and their one alert more; so does an
    Update, sent through the page, of a note that is no longer stored.  On
    any other reply [updateNote] ends with the form reset and in create
    mode, [createNote] with the form reset and the mode as it was, both
    with no alert; [editNote] ends in edit mode on the id asked for, or,
    the body being unreadable, with the page as it was and its alert.
    [cancelEdit] resets the form and puts it in create mode. *)
Theorem replies_and_the_form (n : Z) (t c : string) (pg : page) :
  (exists k,
     updateNote default_title default_content n t c pg
     = CallNotes (Update (decimal n) (JString t) (JString c)) k
     /\ forall rp,
          (failed_reply rp ->
           exists pg',
             k rp = Finish pg'
             /\ kept_as_typed pg "Failed to update note. Please try again."
                              pg')
          /\ (~ failed_reply rp ->
              always_ends
                (fun pg' =>
                   in_create_mode pg'
                   /\ noteTitle_value pg' = default_title
                   /\ noteContent_value pg' = default_content
                   /\ alerts pg' = alerts pg)
                (k rp)))
  /\
  (exists k,
     createNote default_title default_content t c pg
     = CallNotes (Create (JString t) (JString c)) k
     /\ forall rp,
          (failed_reply rp ->
           exists pg',
             k rp = Finish pg'
             /\ kept_as_typed pg "Failed to create note. Please try again."
                              pg')
          /\ (~ failed_reply rp ->
              always_ends
                (fun pg' =>
                   editingNoteId pg' = editingNoteId pg
                   /\ formTitle_textContent pg' = formTitle_textContent pg
                   /\ cancelBtn_display pg' = cancelBtn_display pg
                   /\ noteTitle_value pg' = default_title
                   /\ noteContent_value pg' = default_content
                   /\ alerts pg' = alerts pg)
                (k rp)))
  /\
  (exists k,
     editNote n pg = CallNotes (Get (decimal n)) k
     /\ forall rp,
          (failed_reply rp ->
           exists pg',
             k rp = Finish pg'
             /\ kept_as_typed pg "Failed to load note for editing." pg')
          /\ (~ failed_reply rp ->
              always_ends
                (fun pg' =>
                   (editingNoteId pg' = Some n
                    /\ formTitle_textContent pg' = "Edit Note"
                    /\ cancelBtn_display pg' = "inline-block"
                    /\ notesList pg' = notesList pg
                    /\ alerts pg' = alerts pg)
                   \/ kept_as_typed pg "Failed to load note for editing."
                                    pg')
                (k rp)))
  /\
  (forall id_eq env upstream clk db,
     t <> "" ->
     (forall r, In r (rows db) -> id_eq (decimal n) (id r) = false) ->
     exists pg',
       exec id_eq env upstream [Online clk]
            (updateNote default_title default_content n t c pg) db
       = (pg', db)
       /\ kept_as_typed pg "Failed to update note. Please try again." pg')
  /\ in_create_mode (cancelEdit default_title default_content pg)
  /\ noteTitle_value (cancelEdit default_title default_content pg)
     = default_title
  /\ noteContent_value (cancelEdit default_title default_content pg)
     = default_content.
Proof.
  assert (Kept : forall m, kept_as_typed pg m (alert m pg))
    by (intros m; repeat split).
  split; [ | split; [ | split; [ | split]]].
  - eexists. split; [reflexivity | ]. intros rp. split.
    + intros Hf. eexists. split; [ | apply Kept].
      destruct rp as [m | r]; [reflexivity | ].
      rewrite (failed_reply_not_ok r Hf). reflexivity.
    + intros Hok. destruct rp as [m | r]; [contradiction Hok; exact I | ].
      rewrite (answered_ok r Hok). cbn [negb].
      apply loadNotes_always. intros v. repeat split.
  - eexists. split; [reflexivity | ]. intros rp. split.
    + intros Hf. eexists. split; [ | apply Kept].
      destruct rp as [m | r]; [reflexivity | ].
      rewrite (failed_reply_not_ok r Hf). reflexivity.
    + intros Hok. destruct rp as [m | r]; [contradiction Hok; exact I | ].
      rewrite (answered_ok r Hok). cbn [negb].
      apply loadNotes_always. intros v. repeat split.
  - eexists. split; [reflexivity | ]. intros rp. split.
    + intros Hf. eexists. split; [ | apply Kept].
      destruct rp as [m | r]; [reflexivity | ].
      rewrite (failed_reply_not_ok r Hf). reflexivity.
    + intros Hok. destruct rp as [m | r]; [contradiction Hok; exact I | ].
      rewrite (answered_ok r Hok). cbn [negb always_ends].
      destruct (body_title (body r)); [ | right; apply Kept].
      destruct (body_content (body r)); [ | right; apply Kept].
      left. repeat split.
  - intros id_eq env upstream clk db Ht Hmiss.
    exists (alert "Failed to update note. Please try again." pg).
    split; [ | apply Kept].
    unfold updateNote. cbn [exec handle].
    rewrite (put_note_missing id_eq (now clk) (decimal n) t (JString c) db
               Ht Hmiss).
    reflexivity.
  - repeat split.
Qed.

End Script.

Lemma replies_and_the_form_witness :
  exists pg',
    exec decimal_id_eq with_key (fun _ => Rejected "fetch failed")
         [Online (mkClock 180 180000 180000)]
         (updateNote "" "" 7 "Chores" "milk"
            (mkPage (Some 7) "Chores" "milk" "Edit Note" "inline-block"
                    false "Summarize" NoNotes []))
         two_notes_db
    = (pg', two_notes_db)
    /\ kept_as_typed
         (mkPage (Some 7) "Chores" "milk" "Edit Note" "inline-block" false
                 "Summarize" NoNotes [])
         "Failed to update note. Please try again." pg'.
Proof.
  destruct (replies_and_the_form "" "" 7 "Chores" "milk"
              (mkPage (Some 7) "Chores" "milk" "Edit Note" "inline-block"
                      false "Summarize" NoNotes []))
    as [_ [_ [_ [H _]]]].
  apply (H decimal_id_eq with_key (fun _ => Rejected "fetch failed")
           (mkClock 180 180000 180000) two_notes_db).
  - discriminate.
  - intros r [<- | [<- | []]]; reflexivity.
Defined.

Lemma submit_sends_trimmed_title_witness :
  submit "" ""
    (mkPage None "  " "milk" "Create New Note" "none" false "Summarize"
            NoNotes [])
  = Finish (alert "Please enter a title"
              (mkPage None "  " "milk" "Create New Note" "none" false
                      "Summarize" NoNotes []))
  /\ exists o k,
       submit "" ""
         (mkPage (Some 1) " Groceries v2 " " milk " "Edit Note"
                 "inline-block" false "Summarize" NoNotes [])
       = CallNotes o k
       /\ o = Update "1" (JString "Groceries v2") (JString "milk").
Proof.
  split.
  - apply (proj1 (submit_sends_trimmed_title "" ""
                    (mkPage None "  " "milk" "Create New Note" "none" false
                            "Summarize" NoNotes []))).
    repeat constructor.
  - destruct (proj2 (submit_sends_trimmed_title "" ""
                       (mkPage (Some 1) " Groceries v2 " " milk " "Edit Note"
                               "inline-block" false "Summarize" NoNotes [])))
      as [o [k [E _]]].
    + intros H. inversion H as [ | ? ? _ H']. inversion H' as [ | ? ? C _].
      discriminate C.
    + exists o, k. split; [exact E | ].
      simpl in E. injection E as <- _. reflexivity.
Defined.

Lemma summarize_button_restored_witness :
  summarizeText "Unexpected end of JSON input"
    (mkPage None "Groceries" "   " "Create New Note" "none" false
            "Summarize" NoNotes [])
  = Finish (alert "Please enter some text to summarize first!"
              (mkPage None "Groceries" "   " "Create New Note" "none" false
                      "Summarize" NoNotes []))
  /\ exists k,
       summarizeText "Unexpected end of JSON input"
         (mkPage None "Groceries" " milk, eggs " "Create New Note" "none"
                 false "Summarize" NoNotes [])
       = CallSummarize (JString "milk, eggs") k
       /\ text_missing (JString "milk, eggs") = false.
Proof.
  split.
  - apply (proj1 (summarize_button_restored "Unexpected end of JSON input"
                    (mkPage None "Groceries" "   " "Create New Note" "none"
                            false "Summarize" NoNotes []))).
    repeat constructor.
  - destruct (proj2 (summarize_button_restored
                       "Unexpected end of JSON input"
                       (mkPage None "Groceries" " milk, eggs "
                               "Create New Note" "none" false "Summarize"
                               NoNotes [])))
      as [k [E [M _]]].
    + intros H. inversion H as [ | ? ? _ H']. inversion H' as [ | ? ? C _].
      discriminate C.
    + exists k. split; [exact E | exact M].
Defined.

(* ================================================================== *)
(** * The page script against the server *)



Section ScriptAndServer.

Variable id_eq : string -> Z -> bool.
Variable env : environment.
Variable upstream : fetch_request -> fetch_result.
Variable default_title default_content : string.


(** X17. A note sent through the form shows in the list.  With no note
    being edited and a title that is not blank, a submit that meets the
    network up for its two requests stores one new note, with the title
    and the content trimmed, resets the form, and leaves the list showing
    the cards of all the stored notes, the new one among them. *)
Theorem form_create_is_listed (pg : page) (db : database) (k1 k2 : clock) :
  editing (editingNoteId pg) = false ->
  ~ whitespace_only (noteTitle_value pg) ->
  exec id_eq env upstream [Online k1; Online k2]
       (submit default_title default_content pg) db
  = (show (Cards (select_all
                    {| rows := rows db ++
                         [ mkNote (next_rowid db)
                             (Some (trim (noteTitle_value pg)))
                             (Some (trim (noteContent_value pg)))
                             (now k1) (now k1) ];
                       seq := next_rowid db |}))
          (reset default_title default_content pg),
     {| rows := rows db ++
          [ mkNote (next_rowid db)
              (Some (trim (noteTitle_value pg)))
              (Some (trim (noteContent_value pg)))
              (now k1) (now k1) ];
        seq := next_rowid db |})
  /\ In (mkNote (next_rowid db)
           (Some (trim (noteTitle_value pg)))
           (Some (trim (noteContent_value pg)))
           (now k1) (now k1))
        (select_all
           {| rows := rows db ++
                [ mkNote (next_rowid db)
                    (Some (trim (noteTitle_value pg)))
                    (Some (trim (noteContent_value pg)))
                    (now k1) (now k1) ];
              seq := next_rowid db |}).
Proof.
  intros Hed Ht.
  set (n := mkNote (next_rowid db) (Some (trim (noteTitle_value pg)))
              (Some (trim (noteContent_value pg))) (now k1) (now k1)).
  set (db' := {| rows := rows db ++ [n]; seq := next_rowid db |}).
  assert (Hne : trim (noteTitle_value pg) <> "")
    by (intros E; apply Ht; apply trim_empty_iff; exact E).
  assert (Hin : In n (select_all db')).
  { unfold select_all.
    apply (Permutation_in _ (sort_desc_perm (rows db'))).
    simpl. apply in_or_app. right. left. reflexivity. }
  split; [ | exact Hin].
  assert (S : submit default_title default_content pg
              = createNote default_title default_content
                  (trim (noteTitle_value pg)) (trim (noteContent_value pg))
                  pg).
  { unfold submit. cbv zeta.
    destruct (truthy (JString (trim (noteTitle_value pg)))) eqn:T;
      [ | apply truthy_trim in T; contradiction].
    simpl negb. cbv iota.
    destruct (editingNoteId pg) as [k | ]; [ | reflexivity].
    rewrite Hed. reflexivity. }
  rewrite S. unfold createNote.
  cbn [exec handle].
  rewrite (post_note_run (now k1) (date1 k1) (date2 k1) _
             (JString (trim (noteContent_value pg))) db Hne).
  cbn [defaulted]. fold n. fold db'.
  cbn [fst snd status res_json ok Z.leb Z.compare Pos.compare
       Pos.compare_cont andb negb loadNotes exec handle get_notes body].
  unfold displayNotes.
  destruct (select_all db') as [ | x l] eqn:E; [contradiction | ].
  reflexivity.
Qed.

Hypothesis Hdec : reads_decimal id_eq.


End ScriptAndServer.

Lemma form_create_is_listed_witness :
  In (mkNote 2 (Some "Errands") (Some "") 130 130)
     (select_all
        {| rows := [ mkNote 1 (Some "Groceries") (Some "milk, eggs") 100 100;
                     mkNote 2 (Some "Errands") (Some "") 130 130 ];
           seq := 2 |}).
Proof.
  refine (proj2 (form_create_is_listed
                  decimal_id_eq with_key (fun _ => Rejected "fetch failed")
                  "" ""
                  (mkPage None " Errands " "  " "Create New Note" "none"
                          false "Summarize" NoNotes [])
                  groceries_db
                  (mkClock 130 130000 130000) (mkClock 131 131000 131000)
                  eq_refl _)).
  intros H. inversion H as [ | ? ? _ H']. inversion H' as [ | ? ? C _].
  discriminate C.
Defined.


Lemma sort_desc_nil (l : list note) : sort_desc l = [] -> l = [].
Proof.
  intros H. pose proof (Permutation_length (sort_desc_perm l)) as L.
  rewrite H in L. destruct l; [reflexivity | discriminate].
Qed.

Section PageAndList.

Variable id_eq : string -> Z -> bool.
Variable env : environment.
Variable upstream : fetch_request -> fetch_result.

(** X19. Loading the page lists the stored notes.  With the network up,
    [loadNotes] leaves the list with the empty-state message when no note
    is stored, and otherwise with one card for each stored note, most
    recently touched first; with the network down it leaves the error
    message.  Nothing else on the page changes, and the table is left as
    it was. *)
Theorem load_shows_the_notes (pg : page) (db : database) (k : clock)
        (m : string) :
  exec id_eq env upstream [Online k] (loadNotes pg) db
  = (show (match rows db with
           | [] => NoNotes
           | _ :: _ => Cards (select_all db)
           end) pg, db)
  /\ ordered_listing db (select_all db)
  /\ exec id_eq env upstream [Offline m] (loadNotes pg) db
     = (show LoadError pg, db).
Proof.
  split; [ | split].
  - unfold loadNotes. simpl. unfold displayNotes, select_all.
    destruct (sort_desc (rows db)) as [ | x l] eqn:E.
    + apply sort_desc_nil in E. rewrite E. reflexivity.
    + destruct (rows db); [discriminate E | reflexivity].
  - split; [apply sort_desc_perm | apply sort_desc_sorted].
  - reflexivity.
Qed.

Hypothesis Hdec : reads_decimal id_eq.

(** X20. Deleting through the page.  If the confirm box is dismissed
    nothing is sent.  If it is accepted, the network being up, then in a
    table the service reaches the note with that id, and no other, is
    removed, and the list is reloaded without it; no alert is shown. *)
Theorem delete_through_the_page
  (pg : page) (db : database) (r : note) (k1 k2 : clock) :
  reachable id_eq db ->
  In r (rows db) ->
  deleteNote false (id r) pg = Finish pg
  /\ exists db',
       exec id_eq env upstream [Online k1; Online k2]
            (deleteNote true (id r) pg) db
       = (displayNotes (select_all db') pg, db')
       /\ rows db' = filter (fun x => negb (id x =? id r)) (rows db)
       /\ (forall x, In x (select_all db') -> id x <> id r)
       /\ (List.length (rows db') + 1)%nat = List.length (rows db).
Proof.
  intros Hreach Hin. split; [reflexivity | ].
  destruct (reachable_rowids id_eq db Hreach) as [Hsorted _].
  assert (F : filter (hit id_eq (decimal (id r))) (rows db)
              = filter (fun x => id x =? id r) (rows db))
    by (apply filter_ext; intros x; apply (hit_decimal id_eq Hdec)).
  assert (G : filter (fun x => negb (hit id_eq (decimal (id r)) x)) (rows db)
              = filter (fun x => negb (id x =? id r)) (rows db))
    by (apply filter_ext; intros x; rewrite (hit_decimal id_eq Hdec);
        reflexivity).
  assert (Hr : In r (filter (fun x => id x =? id r) (rows db)))
    by (apply filter_In; split; [exact Hin | apply Z.eqb_refl]).
  assert (One : (List.length (filter (fun x => Z.eqb (id x) (id r)) (rows db))
                 <= 1)%nat).
  { apply (one_hit_at_most (fun z => z =? id r)); [ | exact Hsorted].
    intros a b Ha Hb. apply Z.eqb_eq in Ha, Hb. congruence. }
  pose proof (filter_split_length (fun x => id x =? id r) (rows db)) as Len.
  exists {| rows := filter (fun x => negb (id x =? id r)) (rows db);
            seq := seq db |}.
  split; [ | split; [reflexivity | split]].
  - unfold deleteNote. cbn [negb exec handle].
    unfold delete_note_handler, delete_note. rewrite F, G.
    destruct (filter (fun x => id x =? id r) (rows db)) as [ | y l];
      [contradiction | ].
    cbn [List.length Nat.eqb fst snd status res_json ok Z.leb Z.compare
         Pos.compare Pos.compare_cont andb negb loadNotes exec handle
         get_notes body].
    reflexivity.
  - intros x Hx. unfold select_all in Hx. simpl rows in Hx.
    apply (Permutation_in _ (Permutation_sym (sort_desc_perm _))) in Hx.
    apply filter_In in Hx. destruct Hx as [_ Hx].
    apply negb_true_iff, Z.eqb_neq in Hx. exact Hx.
  - simpl rows.
    destruct (filter (fun x => id x =? id r) (rows db)) as [ | y l];
      [contradiction | ].
    simpl in One, Len. lia.
Qed.

End PageAndList.

Lemma delete_through_the_page_witness :
  deleteNote false 2 (mkPage None "" "" "Create New Note" "none" false
                             "Summarize" NoNotes [])
  = Finish (mkPage None "" "" "Create New Note" "none" false "Summarize"
                   NoNotes [])
  /\ exists db',
       exec decimal_id_eq with_key (fun _ => Rejected "fetch failed")
            [Online (mkClock 190 190000 190000);
             Online (mkClock 191 191000 191000)]
            (deleteNote true 2
               (mkPage None "" "" "Create New Note" "none" false "Summarize"
                       NoNotes []))
            two_notes_db
       = (displayNotes (select_all db')
            (mkPage None "" "" "Create New Note" "none" false "Summarize"
                    NoNotes []), db')
       /\ rows db' = filter (fun x => negb (id x =? 2)) (rows two_notes_db)
       /\ (forall x, In x (select_all db') -> id x <> 2)
       /\ (List.length (rows db') + 1)%nat = List.length (rows two_notes_db).
Proof.
  apply (delete_through_the_page
           decimal_id_eq with_key (fun _ => Rejected "fetch failed")
           decimal_id_eq_reads_decimal
           (mkPage None "" "" "Create New Note" "none" false "Summarize"
                   NoNotes [])
           two_notes_db (mkNote 2 (Some "Errands") (Some "") 130 170)
           (mkClock 190 190000 190000) (mkClock 191 191000 191000)
           two_notes_reachable).
  right. left. reflexivity.
Defined.
